(** * Reading-hall dashboard: the client-side reconciliation logic

    A shallow embedding of the parts of
    [frontend/src/components/Dashboard.js] (the [Dashboard] and
    [SeatLayout] components) and [frontend/src/services/ApiService.js]
    ([startPolling]) that decide what is displayed: the seat grid, the
    derived counters, the selected-seat position, the session duration,
    the usage chart and the polling life cycle. *)

From Stdlib Require Import List String Ascii Bool Arith ZArith NArith QArith Qround Qabs Lia Lqa.
From Stdlib Require Import DecimalString DecimalNat Permutation.
Import ListNotations.

Local Open Scope string_scope.
Local Open Scope nat_scope.
Local Open Scope list_scope.

(** ** JavaScript primitives used by the components *)

Module Js.

(** [`${n}`] for a non-negative integer: its decimal digits. *)
Definition template_nat (n : nat) : string :=
  NilEmpty.string_of_uint (Nat.to_uint n).

(** The character class [\d] of a regular expression without the unicode
    flag: the ten ASCII digits. *)
Definition is_digit (c : ascii) : bool :=
  (48 <=? nat_of_ascii c) && (nat_of_ascii c <=? 57).

(** The longest prefix of digits. *)
Fixpoint take_digits (s : string) : string :=
  match s with
  | String c s' => if is_digit c then String c (take_digits s') else ""
  | EmptyString => ""
  end.

(** [s.match(/\d+/)]: [None] is JavaScript's [null]; [Some d] is a match
    array whose element [0] is [d], the leftmost maximal run of digits. *)
Fixpoint match_digits (s : string) : option string :=
  match s with
  | EmptyString => None
  | String c s' =>
      if is_digit c then Some (String c (take_digits s')) else match_digits s'
  end.

(** [s.replace(/[^0-9]/g, '')]. *)
Fixpoint strip_non_digits (s : string) : string :=
  match s with
  | EmptyString => ""
  | String c s' =>
      if is_digit c then String c (strip_non_digits s') else strip_non_digits s'
  end.

(** ToNumber on a string of decimal digits (the implicit conversion done
    by [/] and [%]); exact as long as the value stays below 2^53. *)
Fixpoint to_number_from (acc : N) (s : string) : N :=
  match s with
  | EmptyString => acc
  | String c s' => to_number_from (10 * acc + (N_of_ascii c - 48))%N s'
  end.

Definition to_number (s : string) : N := to_number_from 0%N s.

(** [Math.ceil(n / d)] for a non-negative integer [n] and [d > 0]. *)
Definition ceil_div (n d : N) : N := ((n + (d - 1)) / d)%N.

(** [a || b] on numbers: [0] is falsy. *)
Definition or_else (a b : N) : N := if (a =? 0)%N then b else a.

(** A [for (let i = 0; i < n; i++) body] loop over an accumulator. *)
Fixpoint for_from {A : Type} (i n : nat) (body : nat -> A -> A) (acc : A) : A :=
  match n with
  | O => acc
  | S n' => for_from (S i) n' body (body i acc)
  end.

Definition for_upto {A : Type} (n : nat) (body : nat -> A -> A) (acc : A) : A :=
  for_from 0 n body acc.

(** [arr.push(x)] *)
Definition push {A : Type} (arr : list A) (x : A) : list A := arr ++ [x].

(** [Math.floor(a / b)] for integers [a] and [b > 0]. *)
Definition floor_div (a b : Z) : Z := (a / b)%Z.

(** [Math.round(x)]: the nearest integer, a tie going up. *)
Definition round (x : Q) : Z := Qfloor (x + (1 # 2)).

(** [x || 0] where [x] is a number, [null] or [undefined]: the falsy
    values ([null], [undefined], [0]) give [0]. *)
Definition number_or_zero (x : option Q) : Q :=
  match x with
  | Some q => if Qeq_bool q 0 then 0%Q else q
  | None => 0%Q
  end.

(** Truthiness of a numeric identifier. *)
Definition truthy (n : nat) : bool := negb (n =? 0).

(** [Number.MAX_SAFE_INTEGER], 2^53 - 1: up to it the numbers of the code
    (doubles) are the integers themselves, and [to_number], [ceil_div] and
    [mod] above are what the code computes. *)
Definition MAX_SAFE_INTEGER : N := 9007199254740991.

(** [arr.map(f)] for a callback that may throw ([inr]): the elements are
    visited from the first on, and the first exception ends the call. *)
Fixpoint map_throwing {A B E : Type} (f : A -> B + E) (arr : list A) : list B + E :=
  match arr with
  | [] => inl []
  | x :: rest =>
      match f x with
      | inr e => inr e
      | inl y =>
          match map_throwing f rest with
          | inl ys => inl (y :: ys)
          | inr e => inr e
          end
      end
  end.

End Js.

(** ** Asynchronous function bodies

    The body of an [async] function after its [await], as a computation on
    the component's state that either completes or throws.  A [try]/[catch]
    keeps the state reached when the error was thrown. *)

Module Async.

(** How the awaited promise was settled. *)
Inductive settled (E A : Type) : Type :=
| Fulfilled (a : A)
| Rejected (e : E).
Arguments Fulfilled {E A} a.
Arguments Rejected {E A} e.

Section Monad.
Context {S E : Type}.

Definition M (A : Type) : Type := S -> (A + E) * S.

Definition ret {A : Type} (a : A) : M A := fun s => (inl a, s).

Definition throw {A : Type} (e : E) : M A := fun s => (inr e, s).

Definition bind {A B : Type} (m : M A) (k : A -> M B) : M B :=
  fun s =>
    match m s with
    | (inl a, s') => k a s'
    | (inr e, s') => (inr e, s')
    end.

(** [try { body } catch (error) { handler }] *)
Definition try_catch (body : M unit) (handler : E -> M unit) : M unit :=
  fun s =>
    match body s with
    | (inl _, s') => (inl tt, s')
    | (inr e, s') => handler e s'
    end.

(** A state setter or any other statement that cannot throw. *)
Definition modify (f : S -> S) : M unit := fun s => (inl tt, f s).

(** An expression that yields a value or throws, and leaves the state as
    it is. *)
Definition eval {A : Type} (r : A + E) : M A := fun s => (r, s).

(** [await p] once [p] is settled. *)
Definition await {A : Type} (p : settled E A) : M A :=
  match p with
  | Fulfilled a => ret a
  | Rejected e => throw e
  end.
End Monad.

Module Notations.
Notation "x <- m ;; k" := (bind m (fun x => k))
  (at level 61, m at next level, right associativity).
Notation "m ;;; k" := (bind m (fun _ => k))
  (at level 61, right associativity).
End Notations.

(** Requests that were sent and whose promise is not settled yet, each
    with the number it was issued under. *)
Section Pending.
Context {R : Type}.

Fixpoint take (id : nat) (pending : list (nat * R)) : option (R * list (nat * R)) :=
  match pending with
  | [] => None
  | (i, r) :: rest =>
      if i =? id then Some (r, rest)
      else match take id rest with
           | Some (r', rest') => Some (r', (i, r) :: rest')
           | None => None
           end
  end.
End Pending.

End Async.

(** ** The seat layout view ([SeatLayout]) *)

Module SeatLayout.

(** A seat record as returned by [GET /api/halls/{id}/seats]. *)
Record Seat := mkSeat {
  id : nat;
  seat_number : string;
  is_occupied : bool;
  is_available : bool;
  current_user_name : option string;
  check_in_time : option Z
}.

(** What [renderSeatGrid] pushes into a row: a [<SeatBox key seat>] or the
    empty [<Box key>] placeholder. *)
Inductive cell :=
| SeatBox (key : nat) (seat : Seat)
| EmptyBox (key : string).

(** The [<Box key={row}>{rowSeats}</Box>] pushed once per row. *)
Record rowBox := mkRow {
  row_key : nat;
  rowSeats : list cell
}.

(** [`R${row + 1}S${col + 1}`] *)
Definition seatNumber (row col : nat) : string :=
  ("R" ++ Js.template_nat (row + 1) ++ "S" ++ Js.template_nat (col + 1))%string.

(** [`empty-${row}-${col}`] *)
Definition emptyKey (row col : nat) : string :=
  ("empty-" ++ Js.template_nat row ++ "-" ++ Js.template_nat col)%string.

(** The body of the inner loop: look the expected seat number up with
    [seats.find] and push the seat or the placeholder. *)
Definition renderCell (seats : list Seat) (row col : nat) : cell :=
  match find (fun s => String.eqb (seat_number s) (seatNumber row col)) seats with
  | Some seat => SeatBox (id seat) seat
  | None => EmptyBox (emptyKey row col)
  end.

(** [renderSeatGrid] with its two local constants as parameters. *)
Definition renderSeatGridOf (rows seatsPerRow : nat) (seats : list Seat) : list rowBox :=
  Js.for_upto rows (fun row seatGrid =>
    let rowSeats :=
      Js.for_upto seatsPerRow (fun col rowSeats =>
        Js.push rowSeats (renderCell seats row col)) [] in
    Js.push seatGrid (mkRow row rowSeats)) [].

(** [renderSeatGrid]: 5 rows of 10 seats. *)
Definition renderSeatGrid (seats : list Seat) : list rowBox :=
  let seatsPerRow := 10 in
  let rows := 5 in
  renderSeatGridOf rows seatsPerRow seats.

(** The cell displayed at a 0-based grid position. *)
Definition cell_at (grid : list rowBox) (row col : nat) : option cell :=
  match nth_error grid row with
  | Some r => nth_error (rowSeats r) col
  | None => None
  end.

(** All cells of a grid, row by row. *)
Definition cells (grid : list rowBox) : list cell :=
  List.concat (map rowSeats grid).

(** [seats.filter(s => s.is_occupied).length] *)
Definition occupiedSeats (seats : list Seat) : nat :=
  List.length (filter (fun s => is_occupied s) seats).

(** [seats.filter(s => s.is_available && !s.is_occupied).length] *)
Definition availableSeats (seats : list Seat) : nat :=
  List.length (filter (fun s => is_available s && negb (is_occupied s)) seats).

(** [getSeatColor] of [SeatBox]. *)
Definition getSeatColor (seat : Seat) : string :=
  if negb (is_available seat) then "#9e9e9e"
  else if is_occupied seat then "#f44336"
  else "#4caf50".

(** The "Position" line of the selected-seat panel:
    [Row {Math.ceil(seat_number.match(/\d+/)[0] / 10)}],
    [Column {seat_number.match(/\d+/)[0] % 10 || 10}].
    [None] stands for the TypeError raised by indexing [null]. *)
Definition positionRow (seat_number : string) : option N :=
  match Js.match_digits seat_number with
  | None => None
  | Some d => Some (Js.ceil_div (Js.to_number d) 10)
  end.

Definition positionColumn (seat_number : string) : option N :=
  match Js.match_digits seat_number with
  | None => None
  | Some d => Some (Js.or_else (Js.to_number d mod 10)%N 10%N)
  end.

(** Both expressions are evaluated while rendering the panel; either one
    throwing aborts the render. *)
Definition position (seat : Seat) : option (N * N) :=
  match positionRow (seat_number seat) with
  | None => None
  | Some r =>
      match positionColumn (seat_number seat) with
      | None => None
      | Some c => Some (r, c)
      end
  end.

(** The selected-seat panel, [{selectedSeat && (<Paper>...</Paper>)}]:
    nothing while no seat is selected, otherwise the panel with its
    "Position" line, unless computing that line throws. *)
Inductive panel :=
| NoPanel
| PanelThrows
| Panel (title : string) (row column : N).

Definition selectedSeatPanel (selected : option Seat) : panel :=
  match selected with
  | None => NoPanel
  | Some seat =>
      match position seat with
      | None => PanelThrows
      | Some (r, c) => Panel (seat_number seat) r c
      end
  end.

(** *** Hall selection and the seat snapshot *)

Import Async.Notations.

(** The payload of a failed request, as thrown by the response interceptor. *)
Definition error := string.

Record Hall := mkHall {
  hall_id : nat;
  name : string
}.

(** The state hooks of [SeatLayout], and what it wrote with
    [console.error]. *)
Record component := mkComponent {
  halls : list Hall;
  selectedHallId : nat;
  seats : list Seat;
  loading : bool;
  selectedSeat : option Seat;
  console : list (string * error)
}.

(** The [useState] initial values. *)
Definition initial : component :=
  {| halls := [];
     selectedHallId := 1;
     seats := [];
     loading := true;
     selectedSeat := None;
     console := [] |}.

Definition setHalls (data : list Hall) (c : component) : component :=
  {| halls := data; selectedHallId := selectedHallId c; seats := seats c;
     loading := loading c; selectedSeat := selectedSeat c; console := console c |}.

Definition setSelectedHallId (h : nat) (c : component) : component :=
  {| halls := halls c; selectedHallId := h; seats := seats c;
     loading := loading c; selectedSeat := selectedSeat c; console := console c |}.

Definition setSeats (data : list Seat) (c : component) : component :=
  {| halls := halls c; selectedHallId := selectedHallId c; seats := data;
     loading := loading c; selectedSeat := selectedSeat c; console := console c |}.

Definition setLoading (b : bool) (c : component) : component :=
  {| halls := halls c; selectedHallId := selectedHallId c; seats := seats c;
     loading := b; selectedSeat := selectedSeat c; console := console c |}.

Definition setSelectedSeat (s : option Seat) (c : component) : component :=
  {| halls := halls c; selectedHallId := selectedHallId c; seats := seats c;
     loading := loading c; selectedSeat := s; console := console c |}.

Definition console_error (msg : string) (e : error) (c : component) : component :=
  {| halls := halls c; selectedHallId := selectedHallId c; seats := seats c;
     loading := loading c; selectedSeat := selectedSeat c;
     console := console c ++ [(msg, e)] |}.

(** A request sent through [ApiService].  [GetHalls] remembers the
    [selectedHallId] that the closure of [fetchHalls] saw when it was
    called, because the code after the [await] reads it. *)
Inductive request :=
| GetHalls (closure_selectedHallId : nat)
| GetHallSeats (hallId : nat).

(** The mounted view: the component, the requests in flight, the number of
    requests sent so far and the errors no [catch] handled. *)
Record page := mkPage {
  comp : component;
  pending : list (nat * request);
  issued : nat;
  unhandled : list error
}.

Definition send (r : request) (p : page) : page :=
  {| comp := comp p;
     pending := pending p ++ [(issued p, r)];
     issued := S (issued p);
     unhandled := unhandled p |}.

Definition with_comp (f : component -> component) (p : page) : page :=
  {| comp := f (comp p); pending := pending p; issued := issued p;
     unhandled := unhandled p |}.

(** Run the rest of an async function on the component. *)
Definition resume (k : @Async.M component error unit) (rest : list (nat * request))
    (p : page) : page :=
  match k (comp p) with
  | (inl _, c) =>
      {| comp := c; pending := rest; issued := issued p; unhandled := unhandled p |}
  | (inr e, c) =>
      {| comp := c; pending := rest; issued := issued p;
         unhandled := unhandled p ++ [e] |}
  end.

(** [fetchHalls] after [await ApiService.getHalls()]. *)
Definition fetchHalls_resume (closure_selectedHallId : nat)
    (r : Async.settled error (list Hall)) : @Async.M component error unit :=
  Async.try_catch
    (data <- Async.await r ;;
     Async.modify (setHalls data) ;;;
     match data with
     | first :: _ =>
         if negb (Js.truthy closure_selectedHallId)
         then Async.modify (setSelectedHallId (hall_id first))
         else Async.ret tt
     | [] => Async.ret tt
     end)
    (fun e => Async.modify (console_error "Error fetching halls:" e)).

(** [fetchSeats] up to its [await]: [setLoading(true)] and the request for
    the hall selected in the calling render. *)
Definition fetchSeats (p : page) : page :=
  send (GetHallSeats (selectedHallId (comp p))) (with_comp (setLoading true) p).

(** [fetchSeats] after [await ApiService.getHallSeats(selectedHallId)]. *)
Definition fetchSeats_resume (r : Async.settled error (list Seat))
    : @Async.M component error unit :=
  Async.try_catch
    (data <- Async.await r ;; Async.modify (setSeats data))
    (fun e => Async.modify (console_error "Error fetching seats:" e)) ;;;
  Async.modify (setLoading false).

(** The effect with dependency [[selectedHallId]]. *)
Definition effect_selectedHallId (p : page) : page :=
  if Js.truthy (selectedHallId (comp p)) then fetchSeats p else p.

(** After a state change React renders again and runs that effect when
    [selectedHallId] differs from the value of the previous render. *)
Definition rerender (previous_selectedHallId : nat) (p : page) : page :=
  if selectedHallId (comp p) =? previous_selectedHallId then p
  else effect_selectedHallId p.

(** First render: both effects run, in the order they are declared. *)
Definition mount : page :=
  let p := {| comp := initial; pending := []; issued := 0; unhandled := [] |} in
  let p := send (GetHalls (selectedHallId (comp p))) p in
  effect_selectedHallId p.

Inductive event :=
| SelectHall (value : nat)
| Refresh
| ClickSeat (seat : Seat)
| HallsSettled (id : nat) (r : Async.settled error (list Hall))
| SeatsSettled (id : nat) (r : Async.settled error (list Seat)).

Definition step (ev : event) (p : page) : page :=
  let previous := selectedHallId (comp p) in
  match ev with
  | SelectHall value =>
      rerender previous (with_comp (setSelectedHallId value) p)
  | Refresh => fetchSeats p
  | ClickSeat seat => with_comp (setSelectedSeat (Some seat)) p
  | HallsSettled id r =>
      match Async.take id (pending p) with
      | Some (GetHalls closure, rest) =>
          rerender previous (resume (fetchHalls_resume closure r) rest p)
      | _ => p
      end
  | SeatsSettled id r =>
      match Async.take id (pending p) with
      | Some (GetHallSeats _, rest) => resume (fetchSeats_resume r) rest p
      | _ => p
      end
  end.

Definition run (evs : list event) (p : page) : page :=
  fold_left (fun q ev => step ev q) evs p.

(** What the view shows of the seat snapshot ([loading] is never read by
    the render). *)
Definition displayedGrid (p : page) : list rowBox :=
  renderSeatGrid (seats (comp p)).

(** Requests in flight were numbered when they were sent, and the only
    [GetHalls] ever sent is the one of the first render. *)
Definition well_formed (p : page) : Prop :=
  (forall i r, In (i, r) (pending p) -> i < issued p) /\
  (forall i closure, In (i, GetHalls closure) (pending p) ->
     closure = selectedHallId initial).

Definition displayedSeats (p : page) : list Seat :=
  List.concat (map (fun r =>
    List.concat (map (fun c => match c with SeatBox _ s => [s] | EmptyBox _ => [] end)
                     (rowSeats r))) (displayedGrid p)).

(** What a [SeatBox] shows for its seat: the digits of the seat number,
    [seat.seat_number.replace(/[^0-9]/g, '')], over the colour of
    [getSeatColor], with the tooltip
    [`${seat.seat_number} - ${seat.is_occupied ? 'Occupied' : 'Available'}`]. *)
Definition seatBoxLabel (seat : Seat) : string :=
  Js.strip_non_digits (seat_number seat).

Definition seatBoxTitle (seat : Seat) : string :=
  (seat_number seat ++ " - " ++
   (if is_occupied seat then "Occupied" else "Available"))%string.

(** The "Total Seats" figure, [seats.length]. *)
Definition totalSeats (seats : list Seat) : nat := List.length seats.

End SeatLayout.

(** ** The dashboard view ([Dashboard]) *)

Module Dashboard.

Import Async.Notations.

Definition error := string.

(** [GET /api/analytics/overview] *)
Record OverviewSnapshot := mkOverview {
  total_seats : Z;
  occupied_seats : Z;
  available_seats : Z;
  occupancy_rate : Q;
  sessions_today : Z;
  avg_duration_minutes : Q
}.

(** An element of [GET /api/sessions/active]; [check_in_time] is the
    millisecond timestamp that [new Date(session.check_in_time)] denotes. *)
Record Session := mkSession {
  id : nat;
  user_name : string;
  student_id : string;
  seat_number : string;
  hall_name : string;
  check_in_time : Z
}.

(** An element of [daily_stats] in [GET /api/analytics/usage]; a [null]
    or missing [avg_duration] is [None]. *)
Record DailyUsageStat := mkStat {
  date : string;
  total_sessions : Z;
  avg_duration : option Q
}.

Record UsageAnalytics := mkUsage {
  daily_stats : list DailyUsageStat
}.

(** A point of the usage chart. *)
Record ChartPoint := mkPoint {
  point_date : string;
  sessions : Z;
  avgDuration : Z
}.

(** The "Duration" column of the active-session table, [now] being the
    value of [Date.now()] during the render:
    [Math.floor((Date.now() - checkInTime) / (1000 * 60))]. *)
Definition duration (now : Z) (session : Session) : Z :=
  let checkInTime := check_in_time session in
  Js.floor_div (now - checkInTime) (1000 * 60).

(** The state hooks of [Dashboard], and what it wrote with
    [console.error]. *)
Record component := mkComponent {
  overview : OverviewSnapshot;
  activeSessions : list Session;
  usageData : list ChartPoint;
  loading : bool;
  console : list (string * error)
}.

Definition initial : component :=
  {| overview := {| total_seats := 0; occupied_seats := 0; available_seats := 0;
                    occupancy_rate := 0; sessions_today := 0;
                    avg_duration_minutes := 0 |};
     activeSessions := [];
     usageData := [];
     loading := true;
     console := [] |}.

Definition setOverview (data : OverviewSnapshot) (c : component) : component :=
  {| overview := data; activeSessions := activeSessions c; usageData := usageData c;
     loading := loading c; console := console c |}.

Definition setActiveSessions (data : list Session) (c : component) : component :=
  {| overview := overview c; activeSessions := data; usageData := usageData c;
     loading := loading c; console := console c |}.

Definition setUsageData (data : list ChartPoint) (c : component) : component :=
  {| overview := overview c; activeSessions := activeSessions c; usageData := data;
     loading := loading c; console := console c |}.

Definition setLoading (b : bool) (c : component) : component :=
  {| overview := overview c; activeSessions := activeSessions c;
     usageData := usageData c; loading := b; console := console c |}.

Definition console_error (msg : string) (e : error) (c : component) : component :=
  {| overview := overview c; activeSessions := activeSessions c;
     usageData := usageData c; loading := loading c;
     console := console c ++ [(msg, e)] |}.

Inductive request :=
| GetOverview
| GetActiveSessions
| GetUsageAnalytics (days : nat).

(** The mounted view: the component, whether the interval set by the
    effect is still registered, the requests in flight, the number of
    requests sent so far and the errors no [catch] handled. *)
Record page := mkPage {
  comp : component;
  interval : bool;
  pending : list (nat * request);
  issued : nat;
  unhandled : list error
}.

Definition send (r : request) (p : page) : page :=
  {| comp := comp p; interval := interval p;
     pending := pending p ++ [(issued p, r)];
     issued := S (issued p);
     unhandled := unhandled p |}.

Definition resume (k : @Async.M component error unit) (rest : list (nat * request))
    (p : page) : page :=
  match k (comp p) with
  | (inl _, c) =>
      {| comp := c; interval := interval p; pending := rest; issued := issued p;
         unhandled := unhandled p |}
  | (inr e, c) =>
      {| comp := c; interval := interval p; pending := rest; issued := issued p;
         unhandled := unhandled p ++ [e] |}
  end.

(** [fetchOverview] and [fetchActiveSessions] up to their [await]. *)
Definition fetchOverview (p : page) : page := send GetOverview p.
Definition fetchActiveSessions (p : page) : page := send GetActiveSessions p.

(** [fetchUsageData] up to its [await]: the last 7 days. *)
Definition fetchUsageData (p : page) : page := send (GetUsageAnalytics 7) p.

(** [fetchOverview] after [await ApiService.getOverview()]. *)
Definition fetchOverview_resume (r : Async.settled error OverviewSnapshot)
    : @Async.M component error unit :=
  Async.try_catch
    (data <- Async.await r ;; Async.modify (setOverview data))
    (fun e => Async.modify (console_error "Error fetching overview:" e)).

(** [fetchActiveSessions] after [await ApiService.getActiveSessions()]. *)
Definition fetchActiveSessions_resume (r : Async.settled error (list Session))
    : @Async.M component error unit :=
  Async.try_catch
    (data <- Async.await r ;; Async.modify (setActiveSessions data))
    (fun e => Async.modify (console_error "Error fetching active sessions:" e)).

Section Usage.
(** [format(new Date(d), 'MMM dd')] of date-fns, on the [date] of a usage
    entry: the label, or [None] when [new Date(d)] is not a valid date, in
    which case [format] throws a [RangeError]. *)
Variable format_MMM_dd : string -> option string.

(** The error [format] throws on an invalid date. *)
Definition RangeError : error := "RangeError: Invalid time value".

(** The object built for one [stat], once its date is formatted. *)
Definition chartPointWith (label : string) (stat : DailyUsageStat) : ChartPoint :=
  {| point_date := label;
     sessions := total_sessions stat;
     avgDuration := Js.round (Js.number_or_zero (avg_duration stat)) |}.

(** The callback of [map]: it throws when [format] does. *)
Definition chartPoint (stat : DailyUsageStat) : ChartPoint + error :=
  match format_MMM_dd (date stat) with
  | Some label => inl (chartPointWith label stat)
  | None => inr RangeError
  end.

(** [data.daily_stats.map(stat => ...).reverse()] *)
Definition chartData (data : UsageAnalytics) : list ChartPoint + error :=
  match Js.map_throwing chartPoint (daily_stats data) with
  | inl points => inl (rev points)
  | inr e => inr e
  end.

(** [fetchUsageData] after [await ApiService.getUsageAnalytics(7)]. *)
Definition fetchUsageData_resume (r : Async.settled error UsageAnalytics)
    : @Async.M component error unit :=
  Async.try_catch
    (data <- Async.await r ;;
     chart <- Async.eval (chartData data) ;;
     Async.modify (setUsageData chart) ;;;
     Async.modify (setLoading false))
    (fun e =>
       Async.modify (console_error "Error fetching usage data:" e) ;;;
       Async.modify (setLoading false)).

(** The callback given to [setInterval]. *)
Definition interval_callback (p : page) : page :=
  fetchActiveSessions (fetchOverview p).

(** The effect of the first render: three fetches, then [setInterval]. *)
Definition mount : page :=
  let p := {| comp := initial; interval := false; pending := [];
              issued := 0; unhandled := [] |} in
  let p := fetchUsageData (fetchActiveSessions (fetchOverview p)) in
  {| comp := comp p; interval := true; pending := pending p;
     issued := issued p; unhandled := unhandled p |}.

(** The function the effect returns: [clearInterval(interval)]. *)
Definition cleanup (p : page) : page :=
  {| comp := comp p; interval := false; pending := pending p;
     issued := issued p; unhandled := unhandled p |}.

(** What can happen to a mounted dashboard: the timer fires, the view is
    torn down, or the promise of a request is settled. *)
Inductive event :=
| Tick
| Unmount
| OverviewSettled (id : nat) (r : Async.settled error OverviewSnapshot)
| ActiveSessionsSettled (id : nat) (r : Async.settled error (list Session))
| UsageSettled (id : nat) (r : Async.settled error UsageAnalytics).

(** A cleared interval never runs its callback again, and a promise is
    settled once. *)
Definition step (ev : event) (p : page) : page :=
  match ev with
  | Tick => if interval p then interval_callback p else p
  | Unmount => cleanup p
  | OverviewSettled id r =>
      match Async.take id (pending p) with
      | Some (GetOverview, rest) => resume (fetchOverview_resume r) rest p
      | _ => p
      end
  | ActiveSessionsSettled id r =>
      match Async.take id (pending p) with
      | Some (GetActiveSessions, rest) =>
          resume (fetchActiveSessions_resume r) rest p
      | _ => p
      end
  | UsageSettled id r =>
      match Async.take id (pending p) with
      | Some (GetUsageAnalytics _, rest) => resume (fetchUsageData_resume r) rest p
      | _ => p
      end
  end.

Definition run (evs : list event) (p : page) : page :=
  fold_left (fun q ev => step ev q) evs p.
End Usage.

(** The ticks of a trace that find the interval registered: those
    before the first teardown. *)
Fixpoint ticks_while_mounted (evs : list event) : nat :=
  match evs with
  | [] => 0
  | Tick :: rest => S (ticks_while_mounted rest)
  | Unmount :: _ => 0
  | _ :: rest => ticks_while_mounted rest
  end.

(** How many of the requests in flight are for the usage analytics. *)
Fixpoint usage_in_flight (pending : list (nat * request)) : nat :=
  match pending with
  | [] => 0
  | (_, GetUsageAnalytics _) :: rest => S (usage_in_flight rest)
  | _ :: rest => usage_in_flight rest
  end.

(** [loading] (the render returns [<LinearProgress />] while it is set) is
    up exactly while one usage request is in flight. *)
Definition loading_tracks_usage (p : page) : Prop :=
  usage_in_flight (pending p) = if loading (comp p) then 1 else 0.

End Dashboard.

(** ** [ApiService.startPolling] *)

Module ApiService.

Import Async.Notations.

Definition error := string.

Section StartPolling.
(** [V] is whatever the caller's [callback] writes to, [D] the payload
    of the polled endpoint. *)
Context {V D : Type}.
Variable endpoint : string.
Variable callback : D -> V -> V.

(** What [poll] can change: the caller's state and the console. *)
Record world := mkWorld {
  target : V;
  console : list (string * error)
}.

Definition call_callback (data : D) (w : world) : world :=
  {| target := callback data (target w); console := console w |}.

Definition console_error (msg : string) (e : error) (w : world) : world :=
  {| target := target w; console := console w ++ [(msg, e)] |}.

(** A running poller: the world, whether [intervalId] is still
    registered, the [this.api.get(endpoint)] calls in flight, how many
    were made so far, and the errors no [catch] handled. *)
Record poller := mkPoller {
  env : world;
  interval : bool;
  pending : list (nat * string);
  issued : nat;
  unhandled : list error
}.

(** [poll] up to its [await]. *)
Definition poll (p : poller) : poller :=
  {| env := env p; interval := interval p;
     pending := pending p ++ [(issued p, endpoint)];
     issued := S (issued p);
     unhandled := unhandled p |}.

(** [poll] after [await this.api.get(endpoint)]. *)
Definition poll_resume (r : Async.settled error D) : @Async.M world error unit :=
  Async.try_catch
    (data <- Async.await r ;; Async.modify (call_callback data))
    (fun e => Async.modify (console_error "Polling error:" e)).

Definition resume (k : @Async.M world error unit) (rest : list (nat * string))
    (p : poller) : poller :=
  match k (env p) with
  | (inl _, w) =>
      {| env := w; interval := interval p; pending := rest; issued := issued p;
         unhandled := unhandled p |}
  | (inr e, w) =>
      {| env := w; interval := interval p; pending := rest; issued := issued p;
         unhandled := unhandled p ++ [e] |}
  end.

(** [startPolling(endpoint, callback)]: the initial call of [poll], then
    [setInterval(poll, interval)]. *)
Definition startPolling (w : world) : poller :=
  let p := {| env := w; interval := false; pending := []; issued := 0;
              unhandled := [] |} in
  let p := poll p in
  {| env := env p; interval := true; pending := pending p; issued := issued p;
     unhandled := unhandled p |}.

(** The function [startPolling] returns: [clearInterval(intervalId)]. *)
Definition cleanup (p : poller) : poller :=
  {| env := env p; interval := false; pending := pending p; issued := issued p;
     unhandled := unhandled p |}.

Inductive event :=
| Tick
| Cleanup
| Settled (id : nat) (r : Async.settled error D).

Definition step (ev : event) (p : poller) : poller :=
  match ev with
  | Tick => if interval p then poll p else p
  | Cleanup => cleanup p
  | Settled id r =>
      match Async.take id (pending p) with
      | Some (_, rest) => resume (poll_resume r) rest p
      | None => p
      end
  end.

Definition run (evs : list event) (p : poller) : poller :=
  fold_left (fun q ev => step ev q) evs p.
End StartPolling.

(** The ticks of a trace that find the interval registered. *)
Fixpoint ticks_before_cleanup {D : Type} (evs : list (@event D)) : nat :=
  match evs with
  | [] => 0
  | Tick :: rest => S (ticks_before_cleanup rest)
  | Cleanup :: _ => 0
  | Settled _ _ :: rest => ticks_before_cleanup rest
  end.

(** The paths the methods of the service request with [this.api.get]. *)
Definition getOverview_path : string := "/api/analytics/overview".

(** [`/api/analytics/usage?days=${days}`] *)
Definition getUsageAnalytics_path (days : nat) : string :=
  ("/api/analytics/usage?days=" ++ Js.template_nat days)%string.

Definition getUsers_path : string := "/api/users".

(** [`/api/users/${barcode}`] *)
Definition getUserByBarcode_path (barcode : string) : string :=
  ("/api/users/" ++ barcode)%string.

Definition getHalls_path : string := "/api/halls".

(** [`/api/halls/${hallId}/seats`] *)
Definition getHallSeats_path (hallId : nat) : string :=
  ("/api/halls/" ++ Js.template_nat hallId ++ "/seats")%string.

Definition getActiveSessions_path : string := "/api/sessions/active".

(** The path each request of the two views goes to. *)
Definition dashboard_path (r : Dashboard.request) : string :=
  match r with
  | Dashboard.GetOverview => getOverview_path
  | Dashboard.GetActiveSessions => getActiveSessions_path
  | Dashboard.GetUsageAnalytics days => getUsageAnalytics_path days
  end.

Definition seatLayout_path (r : SeatLayout.request) : string :=
  match r with
  | SeatLayout.GetHalls _ => getHalls_path
  | SeatLayout.GetHallSeats hallId => getHallSeats_path hallId
  end.

End ApiService.

(** ** The properties the views are checked against *)

Module Spec.

Import SeatLayout.

(** [s] is the first seat of [seats] whose seat number is [sn]. *)
Definition first_with_number (sn : string) (seats : list Seat) (s : Seat) : Prop :=
  exists before after,
    seats = before ++ s :: after /\
    seat_number s = sn /\
    forall x, In x before -> seat_number x <> sn.

(** The number of elements on which a flag holds. *)
Fixpoint count {A : Type} (flag : A -> bool) (l : list A) : nat :=
  match l with
  | [] => 0
  | x :: l' => (if flag x then 1 else 0) + count flag l'
  end.

(** [z] is an integer nearest to [q]. *)
Definition nearest_integer (z : Z) (q : Q) : Prop :=
  forall k : Z, (Qabs (inject_Z z - q) <= Qabs (inject_Z k - q))%Q.

(** Every character of the string is a decimal digit. *)
Fixpoint all_digits (s : string) : bool :=
  match s with
  | EmptyString => true
  | String c s' => Js.is_digit c && all_digits s'
  end.

(** The string contains a decimal digit. *)
Fixpoint has_digit (s : string) : bool :=
  match s with
  | EmptyString => false
  | String c s' => Js.is_digit c || has_digit s'
  end.

(** The "Position" line announces this row and this column. *)
Definition position_is (seat_number : string) (row column : N) : bool :=
  match SeatLayout.positionRow seat_number, SeatLayout.positionColumn seat_number with
  | Some r, Some c => (r =? row)%N && (c =? column)%N
  | _, _ => false
  end.

(** The average of a usage entry as a number, [null] counting as 0. *)
Definition average (stat : Dashboard.DailyUsageStat) : Q :=
  match Dashboard.avg_duration stat with
  | Some q => q
  | None => 0%Q
  end.

End Spec.

(** ** Sample data *)

Module Sample.

Import SeatLayout.

Definition seat_R3S7 : Seat :=
  {| id := 27; seat_number := "R3S7"; is_occupied := true; is_available := true;
     current_user_name := Some "Asha"; check_in_time := Some 1700000000000%Z |}.

Definition seat_R3S7_again : Seat :=
  {| id := 77; seat_number := "R3S7"; is_occupied := false; is_available := true;
     current_user_name := None; check_in_time := None |}.

Definition seat_R1S10 : Seat :=
  {| id := 10; seat_number := "R1S10"; is_occupied := false; is_available := true;
     current_user_name := None; check_in_time := None |}.

Definition seat_R9S1 : Seat :=
  {| id := 81; seat_number := "R9S1"; is_occupied := true; is_available := false;
     current_user_name := None; check_in_time := None |}.

Definition seat_balcony : Seat :=
  {| id := 90; seat_number := "BALCONY"; is_occupied := false; is_available := true;
     current_user_name := None; check_in_time := None |}.

Definition seat_S37 : Seat :=
  {| id := 37; seat_number := "S37"; is_occupied := false; is_available := true;
     current_user_name := None; check_in_time := None |}.

Definition snapshot : list Seat :=
  [seat_R3S7; seat_R9S1; seat_R3S7_again; seat_R1S10; seat_balcony].

Definition session : Dashboard.Session :=
  {| Dashboard.id := 5; Dashboard.user_name := "Asha"; Dashboard.student_id := "S-1001";
     Dashboard.seat_number := "R3S7"; Dashboard.hall_name := "Main Hall";
     Dashboard.check_in_time := 1700000000000%Z |}.

(** A stand-in for date-fns' [format(new Date(d), 'MMM dd')] on the dates
    the usage endpoint sends, read in UTC: [YYYY-MM-DD] gives the
    abbreviation of the month and the day (the length of the month is not
    checked); any other string is not a date, and [format] throws. *)
Definition month_label (m : N) : option string :=
  match m with
  | 1 => Some "Jan" | 2 => Some "Feb" | 3 => Some "Mar" | 4 => Some "Apr"
  | 5 => Some "May" | 6 => Some "Jun" | 7 => Some "Jul" | 8 => Some "Aug"
  | 9 => Some "Sep" | 10 => Some "Oct" | 11 => Some "Nov" | 12 => Some "Dec"
  | _ => None
  end%N.

Definition format_MMM_dd (d : string) : option string :=
  match d with
  | String y1 (String y2 (String y3 (String y4 (String h1 (String m1 (String m2
      (String h2 (String d1 (String d2 EmptyString))))))))) =>
      let year := String y1 (String y2 (String y3 (String y4 EmptyString))) in
      let month := String m1 (String m2 EmptyString) in
      let day := String d1 (String d2 EmptyString) in
      if Ascii.eqb h1 "-" && Ascii.eqb h2 "-" &&
         Spec.all_digits year && Spec.all_digits month && Spec.all_digits day &&
         (1 <=? Js.to_number day)%N && (Js.to_number day <=? 31)%N
      then match month_label (Js.to_number month) with
           | Some label => Some (label ++ " " ++ day)%string
           | None => None
           end
      else None
  | _ => None
  end.

(** Three days, most recent first. *)
Definition usage : Dashboard.UsageAnalytics :=
  {| Dashboard.daily_stats :=
       [ {| Dashboard.date := "2025-03-03"; Dashboard.total_sessions := 12%Z;
            Dashboard.avg_duration := Some (91 # 2)%Q |};
         {| Dashboard.date := "2025-03-02"; Dashboard.total_sessions := 0%Z;
            Dashboard.avg_duration := None |};
         {| Dashboard.date := "2025-03-01"; Dashboard.total_sessions := 7%Z;
            Dashboard.avg_duration := Some (307 # 10)%Q |} ] |}.

(** Three days, the second with a date that is not one. *)
Definition usage_bad_date : Dashboard.UsageAnalytics :=
  {| Dashboard.daily_stats :=
       [ {| Dashboard.date := "2025-03-03"; Dashboard.total_sessions := 12%Z;
            Dashboard.avg_duration := Some (91 # 2)%Q |};
         {| Dashboard.date := "not-a-date"; Dashboard.total_sessions := 3%Z;
            Dashboard.avg_duration := None |};
         {| Dashboard.date := "2025-03-01"; Dashboard.total_sessions := 7%Z;
            Dashboard.avg_duration := Some (307 # 10)%Q |} ] |}.

(** A caller of [startPolling] that keeps the last payload received. *)
Definition keep_last (data : nat) (shown : nat) : nat := data.

Definition poller_started : @ApiService.poller nat :=
  ApiService.startPolling "/api/sessions/active"
    {| ApiService.target := 0; ApiService.console := [] |}.

(** The halls endpoint answers with a list whose first hall has id 7. *)
Definition halls_7_first : list Hall :=
  [ {| hall_id := 7; name := "Annex" |}; {| hall_id := 1; name := "Main Hall" |} ].

(** The seat layout once the seats of hall 1 have arrived. *)
Definition hall_1_loaded : page :=
  run [SeatsSettled 1 (Async.Fulfilled snapshot)] mount.

Definition overview_40 : Dashboard.OverviewSnapshot :=
  {| Dashboard.total_seats := 50; Dashboard.occupied_seats := 20;
     Dashboard.available_seats := 30; Dashboard.occupancy_rate := 40;
     Dashboard.sessions_today := 12; Dashboard.avg_duration_minutes := 45 |}.

End Sample.

(** ** Loops and lists *)

Lemma for_from_push {A : Type} (f : nat -> A) (n i : nat) (acc : list A) :
  Js.for_from i n (fun k arr => Js.push arr (f k)) acc = acc ++ map f (seq i n).
Proof.
  revert i acc.
  induction n as [|n IH]; intros i acc; simpl.
  - now rewrite app_nil_r.
  - rewrite IH. unfold Js.push. now rewrite <- app_assoc.
Qed.

Lemma for_upto_push {A : Type} (f : nat -> A) (n : nat) :
  Js.for_upto n (fun k arr => Js.push arr (f k)) [] = map f (seq 0 n).
Proof. unfold Js.for_upto. now rewrite for_from_push. Qed.

Lemma nth_error_map_seq {A : Type} (f : nat -> A) (n i : nat) :
  i < n -> nth_error (map f (seq 0 n)) i = Some (f i).
Proof.
  intros Hi.
  rewrite nth_error_map, nth_error_seq.
  destruct (Nat.ltb_spec i n); [reflexivity | lia].
Qed.

Lemma find_first {A : Type} (p : A -> bool) (l : list A) (x : A) :
  find p l = Some x <->
  exists before after,
    l = before ++ x :: after /\ p x = true /\ forall y, In y before -> p y = false.
Proof.
  induction l as [|a l IH]; simpl.
  - split; [discriminate|].
    intros (b & a' & H & _). destruct b; discriminate.
  - destruct (p a) eqn:Ha.
    + split.
      * intros [= ->]. exists [], l. repeat split; auto. intros y [].
      * intros (b & af & Hl & Hx & Hb).
        destruct b as [|b0 b]; simpl in Hl; injection Hl as E1 E2; [congruence|].
        specialize (Hb b0 (or_introl eq_refl)). congruence.
    + rewrite IH. split.
      * intros (b & af & -> & Hx & Hb). exists (a :: b), af.
        repeat split; auto. intros y [<-|Hy]; auto.
      * intros (b & af & Hl & Hx & Hb).
        destruct b as [|b0 b]; simpl in Hl; injection Hl as E1 E2; [congruence|].
        exists b, af. repeat split; auto. intros y Hy. apply Hb. now right.
Qed.

(** ** The seat grid *)

Module SeatGrid.

Import SeatLayout.

(** The two loops of [renderSeatGrid] build the grid row by row and cell
    by cell. *)
Lemma renderSeatGridOf_map (rows seatsPerRow : nat) (seats : list Seat) :
  renderSeatGridOf rows seatsPerRow seats =
  map (fun row => mkRow row (map (renderCell seats row) (seq 0 seatsPerRow)))
      (seq 0 rows).
Proof.
  unfold renderSeatGridOf.
  rewrite (for_upto_push
    (fun row => mkRow row
       (Js.for_upto seatsPerRow
          (fun col rowSeats => Js.push rowSeats (renderCell seats row col)) []))).
  apply map_ext. intros row. now rewrite for_upto_push.
Qed.

Lemma cell_at_render (rows seatsPerRow : nat) (seats : list Seat) (row col : nat) :
  row < rows -> col < seatsPerRow ->
  cell_at (renderSeatGridOf rows seatsPerRow seats) row col =
  Some (renderCell seats row col).
Proof.
  intros Hr Hc. unfold cell_at.
  rewrite renderSeatGridOf_map, nth_error_map_seq by assumption.
  simpl. now apply nth_error_map_seq.
Qed.

Lemma cell_at_inside (rows seatsPerRow : nat) (seats : list Seat) (row col : nat) (c : cell) :
  cell_at (renderSeatGridOf rows seatsPerRow seats) row col = Some c ->
  row < rows /\ col < seatsPerRow.
Proof.
  unfold cell_at. rewrite renderSeatGridOf_map.
  rewrite nth_error_map, nth_error_seq.
  destruct (Nat.ltb_spec row rows); simpl; [|discriminate].
  rewrite nth_error_map, nth_error_seq.
  destruct (Nat.ltb_spec col seatsPerRow); simpl; [|discriminate].
  auto.
Qed.

Lemma cells_length (rows seatsPerRow : nat) (seats : list Seat) :
  List.length (cells (renderSeatGridOf rows seatsPerRow seats)) = rows * seatsPerRow.
Proof.
  unfold cells. rewrite renderSeatGridOf_map, map_map. simpl.
  generalize 0 at 2. induction rows as [|rows IH]; intros start; simpl.
  - reflexivity.
  - rewrite length_app, IH, length_map, length_seq. reflexivity.
Qed.

Lemma In_cells (grid : list rowBox) (c : cell) :
  In c (cells grid) <-> exists row col, cell_at grid row col = Some c.
Proof.
  unfold cells, cell_at. rewrite in_concat. split.
  - intros (l & Hl & Hc). apply in_map_iff in Hl as (r & <- & Hr).
    apply In_nth_error in Hr as (row & Hrow).
    apply In_nth_error in Hc as (col & Hcol).
    exists row, col. now rewrite Hrow.
  - intros (row & col & H).
    destruct (nth_error grid row) as [r|] eqn:Hrow; [|discriminate].
    exists (rowSeats r). split.
    + apply in_map. eapply nth_error_In; eauto.
    + eapply nth_error_In; eauto.
Qed.

Lemma renderCell_seat (seats : list Seat) (row col : nat) (key : nat) (s : Seat) :
  renderCell seats row col = SeatBox key s <->
  key = id s /\ Spec.first_with_number (seatNumber row col) seats s.
Proof.
  unfold renderCell, Spec.first_with_number.
  destruct (find _ seats) as [x|] eqn:Hf.
  - apply find_first in Hf as (b & a & Hl & Hx & Hb).
    apply String.eqb_eq in Hx.
    split.
    + intros [= <- <-]. split; [reflexivity|].
      exists b, a. repeat split; auto.
      intros y Hy. specialize (Hb y Hy). now apply String.eqb_neq in Hb.
    + intros (-> & b' & a' & Hl' & Hs & Hb').
      enough (x = s) by (subst; reflexivity).
      subst seats.
      clear - Hl' Hx Hs Hb Hb'.
      revert b' Hl' Hb'. induction b as [|b0 b IH]; intros b' Hl' Hb'.
      * destruct b' as [|b0' b']; simpl in Hl'; injection Hl' as ? ?; [assumption|].
        subst. exfalso. eapply Hb'; [left; reflexivity | assumption].
      * destruct b' as [|b0' b']; simpl in Hl'; injection Hl' as ? ?.
        -- subst. specialize (Hb s (or_introl eq_refl)).
           apply String.eqb_neq in Hb. contradiction.
        -- subst. apply (IH (fun y Hy => Hb y (or_intror Hy)) b'); auto.
           intros y Hy. apply Hb'. now right.
  - split; [discriminate|].
    intros (_ & b & a & -> & Hs & _).
    eapply find_none in Hf; [|apply in_elt].
    simpl in Hf. apply String.eqb_neq in Hf. contradiction.
Qed.

Lemma renderCell_empty (seats : list Seat) (row col : nat) (key : string) :
  renderCell seats row col = EmptyBox key <->
  key = emptyKey row col /\
  forall s, In s seats -> seat_number s <> seatNumber row col.
Proof.
  unfold renderCell.
  destruct (find _ seats) as [x|] eqn:Hf.
  - split; [discriminate|]. intros (_ & H).
    apply find_some in Hf as (Hin & Hx). apply String.eqb_eq in Hx.
    now apply H in Hin.
  - split.
    + intros [= <-]. split; [reflexivity|]. intros s Hs.
      apply (find_none _ _ Hf) in Hs. now apply String.eqb_neq in Hs.
    + now intros (-> & _).
Qed.

End SeatGrid.

(** ** Seat numbers *)

Module SeatNumbers.

Import SeatLayout.

Lemma string_of_uint_all_digits (d : Decimal.uint) :
  Spec.all_digits (NilEmpty.string_of_uint d) = true.
Proof. induction d; simpl; auto. Qed.

Lemma template_nat_all_digits (n : nat) : Spec.all_digits (Js.template_nat n) = true.
Proof. apply string_of_uint_all_digits. Qed.

Lemma template_nat_inj (n m : nat) : Js.template_nat n = Js.template_nat m -> n = m.
Proof.
  unfold Js.template_nat. intros H.
  apply Unsigned.to_uint_inj.
  apply (f_equal NilEmpty.uint_of_string) in H.
  rewrite !NilEmpty.usu in H. congruence.
Qed.

(** A letter between two runs of digits delimits them. *)
Lemma split_at_letter (sep : ascii) (a a' b b' : string) :
  Js.is_digit sep = false ->
  Spec.all_digits a = true -> Spec.all_digits a' = true ->
  (a ++ String sep b)%string = (a' ++ String sep b')%string ->
  a = a' /\ b = b'.
Proof.
  intros Hsep. revert a'.
  induction a as [|c a IH]; intros [|c' a'] Ha Ha' H; simpl in *.
  - injection H as ->. auto.
  - injection H as <- _. apply andb_prop in Ha' as [Hc _]. congruence.
  - injection H as -> _. apply andb_prop in Ha as [Hc _]. congruence.
  - injection H as -> H.
    apply andb_prop in Ha as [_ Ha]. apply andb_prop in Ha' as [_ Ha'].
    destruct (IH a' Ha Ha' H) as [-> ->]. auto.
Qed.

(** Distinct grid positions have distinct seat numbers. *)
Lemma seatNumber_inj (row col row' col' : nat) :
  seatNumber row col = seatNumber row' col' -> row = row' /\ col = col'.
Proof.
  unfold seatNumber. simpl. intros [= H].
  apply (split_at_letter "S") in H as [Hr Hc];
    try reflexivity; try apply template_nat_all_digits.
  apply template_nat_inj in Hr. apply template_nat_inj in Hc. lia.
Qed.

End SeatNumbers.

(** C1. For every grid shape (the two constants of [renderSeatGrid], which
    the code sets to 5 rows of 10 seats) and every list of seats, the grid
    has exactly [rows * seatsPerRow] cells, [seatsPerRow] in each of its
    [rows] rows; the cell at the 0-based position [(row, col)] is the seat
    box of the first seat numbered [R{row+1}S{col+1}] when there is one
    and the empty placeholder otherwise; a seat box only ever shows an
    input seat at the one position its seat number names, so a seat whose
    number names no position of the grid is in no cell. *)
Theorem renderSeatGrid_reconciles (rows seatsPerRow : nat) (seats : list SeatLayout.Seat) :
  let grid := SeatLayout.renderSeatGridOf rows seatsPerRow seats in
  SeatLayout.renderSeatGrid seats = SeatLayout.renderSeatGridOf 5 10 seats /\
  List.length grid = rows /\
  (forall r, In r grid -> List.length (SeatLayout.rowSeats r) = seatsPerRow) /\
  List.length (SeatLayout.cells grid) = rows * seatsPerRow /\
  (forall row col, row < rows -> col < seatsPerRow ->
     (exists s,
        Spec.first_with_number (SeatLayout.seatNumber row col) seats s /\
        SeatLayout.cell_at grid row col = Some (SeatLayout.SeatBox (SeatLayout.id s) s))
     \/
     ((forall s, In s seats ->
         SeatLayout.seat_number s <> SeatLayout.seatNumber row col) /\
      SeatLayout.cell_at grid row col =
        Some (SeatLayout.EmptyBox (SeatLayout.emptyKey row col)))) /\
  (forall row col key s,
     SeatLayout.cell_at grid row col = Some (SeatLayout.SeatBox key s) ->
     row < rows /\ col < seatsPerRow /\ In s seats /\
     SeatLayout.seat_number s = SeatLayout.seatNumber row col /\
     forall row' col' key',
       SeatLayout.cell_at grid row' col' = Some (SeatLayout.SeatBox key' s) ->
       row' = row /\ col' = col) /\
  (forall s,
     (forall row col, row < rows -> col < seatsPerRow ->
        SeatLayout.seat_number s <> SeatLayout.seatNumber row col) ->
     forall key, ~ In (SeatLayout.SeatBox key s) (SeatLayout.cells grid)).
Proof.
  intros grid.
  assert (Hat : forall row col key s,
             SeatLayout.cell_at grid row col = Some (SeatLayout.SeatBox key s) ->
             row < rows /\ col < seatsPerRow /\ In s seats /\
             SeatLayout.seat_number s = SeatLayout.seatNumber row col).
  { intros row col key s H.
    destruct (SeatGrid.cell_at_inside _ _ _ _ _ _ H) as [Hr Hc].
    unfold grid in H. rewrite SeatGrid.cell_at_render in H by assumption.
    injection H as H.
    apply SeatGrid.renderCell_seat in H as (_ & b & a & -> & Hs & _).
    repeat split; auto. apply in_elt. }
  split; [reflexivity|].
  split; [unfold grid; now rewrite SeatGrid.renderSeatGridOf_map, length_map, length_seq|].
  split.
  { intros r Hr. unfold grid in Hr. rewrite SeatGrid.renderSeatGridOf_map in Hr.
    apply in_map_iff in Hr as (row & <- & _). simpl.
    now rewrite length_map, length_seq. }
  split; [apply SeatGrid.cells_length|].
  split.
  { intros row col Hr Hc. unfold grid.
    rewrite SeatGrid.cell_at_render by assumption.
    destruct (SeatLayout.renderCell seats row col) as [key s|key] eqn:Hcell.
    - left. apply SeatGrid.renderCell_seat in Hcell as [-> Hfirst]. eauto.
    - right. apply SeatGrid.renderCell_empty in Hcell as [-> Hnone]. auto. }
  split.
  { intros row col key s H.
    destruct (Hat _ _ _ _ H) as (Hr & Hc & Hin & Hnum).
    repeat split; auto.
    - destruct (Hat _ _ _ _ H0) as (_ & _ & _ & Hnum').
      rewrite Hnum in Hnum'. now apply SeatNumbers.seatNumber_inj in Hnum'.
    - destruct (Hat _ _ _ _ H0) as (_ & _ & _ & Hnum').
      rewrite Hnum in Hnum'. now apply SeatNumbers.seatNumber_inj in Hnum'. }
  intros s Hno key Hin.
  apply SeatGrid.In_cells in Hin as (row & col & H).
  destruct (Hat _ _ _ _ H) as (Hr & Hc & _ & Hnum).
  exact (Hno row col Hr Hc Hnum).
Qed.

(** C1 on the sample snapshot: the cell of row 2, column 6 and the seat
    numbered [R9S1], which names no position of a 5 by 10 grid. *)
Lemma renderSeatGrid_reconciles_witness :
  ((exists s,
      Spec.first_with_number (SeatLayout.seatNumber 2 6) Sample.snapshot s /\
      SeatLayout.cell_at (SeatLayout.renderSeatGridOf 5 10 Sample.snapshot) 2 6 =
        Some (SeatLayout.SeatBox (SeatLayout.id s) s))
   \/
   ((forall s, In s Sample.snapshot ->
       SeatLayout.seat_number s <> SeatLayout.seatNumber 2 6) /\
    SeatLayout.cell_at (SeatLayout.renderSeatGridOf 5 10 Sample.snapshot) 2 6 =
      Some (SeatLayout.EmptyBox (SeatLayout.emptyKey 2 6)))) /\
  ~ In (SeatLayout.SeatBox 81 Sample.seat_R9S1)
       (SeatLayout.cells (SeatLayout.renderSeatGridOf 5 10 Sample.snapshot)).
Proof.
  destruct (renderSeatGrid_reconciles 5 10 Sample.snapshot)
    as (_ & _ & _ & _ & Hcell & _ & Horphan).
  split.
  - apply Hcell; lia.
  - apply Horphan. intros row col Hr Hc.
    do 5 (destruct row as [|row];
          [do 10 (destruct col as [|col]; [discriminate|]); lia|]).
    lia.
Defined.

(** The sample grid, evaluated. *)
Example renderSeatGrid_sample :
  SeatLayout.cell_at (SeatLayout.renderSeatGrid Sample.snapshot) 2 6 =
    Some (SeatLayout.SeatBox 27 Sample.seat_R3S7) /\
  SeatLayout.cell_at (SeatLayout.renderSeatGrid Sample.snapshot) 0 9 =
    Some (SeatLayout.SeatBox 10 Sample.seat_R1S10) /\
  SeatLayout.cell_at (SeatLayout.renderSeatGrid Sample.snapshot) 4 9 =
    Some (SeatLayout.EmptyBox "empty-4-9") /\
  SeatLayout.cell_at (SeatLayout.renderSeatGrid Sample.snapshot) 5 0 = None /\
  SeatLayout.displayedSeats
    {| SeatLayout.comp := SeatLayout.setSeats Sample.snapshot SeatLayout.initial;
       SeatLayout.pending := []; SeatLayout.issued := 0;
       SeatLayout.unhandled := [] |} = [Sample.seat_R1S10; Sample.seat_R3S7].
Proof. repeat split; reflexivity. Qed.

(** ** Derived counters *)

Lemma filter_length_count {A : Type} (flag : A -> bool) (l : list A) :
  List.length (filter flag l) = Spec.count flag l.
Proof.
  induction l as [|x l IH]; simpl; [reflexivity|].
  destruct (flag x); simpl; now rewrite IH.
Qed.

Lemma count_disjoint {A : Type} (f g : A -> bool) (l : list A) :
  (forall x, f x && g x = false) ->
  Spec.count f l + Spec.count g l <= List.length l.
Proof.
  intros Hfg. induction l as [|x l IH]; simpl; [lia|].
  specialize (Hfg x). destruct (f x), (g x); simpl in *; try discriminate; lia.
Qed.

(** What [fetchSeats] leaves in the component once a snapshot arrived. *)
Lemma fetchSeats_resume_fulfilled (data : list SeatLayout.Seat) (c : SeatLayout.component) :
  SeatLayout.fetchSeats_resume (Async.Fulfilled data) c =
  (inl tt, SeatLayout.setLoading false (SeatLayout.setSeats data c)).
Proof. reflexivity. Qed.

(** C7. The occupied counter is the number of seats flagged occupied and
    the available counter the number of seats flagged available and not
    occupied; both are functions of the snapshot alone: whatever the
    component held before, once a snapshot is applied the counters and the
    grid are those of that snapshot, and applying the same snapshot a
    second time changes neither the component, nor the counters, nor the
    grid. *)
Theorem derived_counts_per_snapshot
    (snapshot : list SeatLayout.Seat) (before : SeatLayout.component) :
  let once := snd (SeatLayout.fetchSeats_resume (Async.Fulfilled snapshot) before) in
  let twice := snd (SeatLayout.fetchSeats_resume (Async.Fulfilled snapshot) once) in
  SeatLayout.occupiedSeats snapshot =
    Spec.count SeatLayout.is_occupied snapshot /\
  SeatLayout.availableSeats snapshot =
    Spec.count (fun s => SeatLayout.is_available s && negb (SeatLayout.is_occupied s))
               snapshot /\
  SeatLayout.occupiedSeats snapshot + SeatLayout.availableSeats snapshot
    <= List.length snapshot /\
  SeatLayout.seats once = snapshot /\
  twice = once /\
  SeatLayout.occupiedSeats (SeatLayout.seats twice) =
    SeatLayout.occupiedSeats (SeatLayout.seats once) /\
  SeatLayout.availableSeats (SeatLayout.seats twice) =
    SeatLayout.availableSeats (SeatLayout.seats once) /\
  SeatLayout.renderSeatGrid (SeatLayout.seats twice) =
    SeatLayout.renderSeatGrid (SeatLayout.seats once).
Proof.
  intros once twice.
  assert (Htwice : twice = once) by reflexivity.
  unfold SeatLayout.occupiedSeats, SeatLayout.availableSeats.
  rewrite !filter_length_count, Htwice.
  repeat split.
  apply count_disjoint. intros s.
  destruct (SeatLayout.is_occupied s), (SeatLayout.is_available s); reflexivity.
Qed.

(** The counters of the sample snapshot. *)
Example derived_counts_sample :
  SeatLayout.occupiedSeats Sample.snapshot = 2 /\
  SeatLayout.availableSeats Sample.snapshot = 3.
Proof. split; reflexivity. Qed.

(** ** The selected-seat panel *)

Lemma match_digits_none (s : string) :
  Js.match_digits s = None <-> Spec.has_digit s = false.
Proof.
  induction s as [|c s IH]; simpl; [tauto|].
  destruct (Js.is_digit c); simpl; [split; discriminate | exact IH].
Qed.

Lemma position_none (seat : SeatLayout.Seat) :
  SeatLayout.position seat = None <->
  Js.match_digits (SeatLayout.seat_number seat) = None.
Proof.
  unfold SeatLayout.position, SeatLayout.positionRow, SeatLayout.positionColumn.
  destruct (Js.match_digits _); split; congruence.
Qed.

(** C10. The "Position" line is computed only for a seat number that
    contains a decimal digit: when it contains none, [match] gives [null],
    both expressions throw and the panel of the seat that was clicked
    cannot be rendered; when it contains one, the panel is rendered. *)
Theorem position_requires_digit (seat : SeatLayout.Seat) (p : SeatLayout.page) :
  let clicked := SeatLayout.step (SeatLayout.ClickSeat seat) p in
  (Spec.has_digit (SeatLayout.seat_number seat) = false ->
     Js.match_digits (SeatLayout.seat_number seat) = None /\
     SeatLayout.positionRow (SeatLayout.seat_number seat) = None /\
     SeatLayout.positionColumn (SeatLayout.seat_number seat) = None /\
     SeatLayout.selectedSeatPanel (SeatLayout.selectedSeat (SeatLayout.comp clicked))
       = SeatLayout.PanelThrows) /\
  (Spec.has_digit (SeatLayout.seat_number seat) = true ->
     exists row column,
       SeatLayout.selectedSeatPanel (SeatLayout.selectedSeat (SeatLayout.comp clicked))
         = SeatLayout.Panel (SeatLayout.seat_number seat) row column).
Proof.
  intros clicked. simpl.
  unfold SeatLayout.position, SeatLayout.positionRow, SeatLayout.positionColumn.
  split; intros Hd.
  - apply match_digits_none in Hd. now rewrite Hd.
  - destruct (Js.match_digits (SeatLayout.seat_number seat)) as [d|] eqn:Hm.
    + eauto.
    + apply match_digits_none in Hm. congruence.
Qed.

(** C10 on the seat numbered [BALCONY] and on the seat numbered [R3S7]. *)
Lemma position_requires_digit_witness :
  SeatLayout.selectedSeatPanel (Some Sample.seat_balcony) = SeatLayout.PanelThrows /\
  exists row column,
    SeatLayout.selectedSeatPanel (Some Sample.seat_R3S7) =
      SeatLayout.Panel "R3S7" row column.
Proof.
  split.
  - apply (proj1 (position_requires_digit Sample.seat_balcony SeatLayout.mount)).
    reflexivity.
  - apply (proj2 (position_requires_digit Sample.seat_R3S7 SeatLayout.mount)).
    reflexivity.
Defined.

(** C3, on the code. The panel does not invert the grid's seat numbering:
    it reads the first run of digits only, so [R3S7] is announced as row 1,
    column 3 (not row 3, column 7) and [R1S10] as column 1 (not 10); every
    seat of the 5 by 10 grid is announced in row 1, at the column equal to
    its grid row. *)
Theorem position_ignores_seat_column :
  SeatLayout.position Sample.seat_R3S7 = Some (1%N, 3%N) /\
  SeatLayout.position Sample.seat_R1S10 = Some (1%N, 1%N) /\
  SeatLayout.cell_at (SeatLayout.renderSeatGrid Sample.snapshot) 2 6 =
    Some (SeatLayout.SeatBox 27 Sample.seat_R3S7) /\
  forallb (fun row =>
    forallb (fun col =>
      Spec.position_is (SeatLayout.seatNumber row col) 1%N (N.of_nat (row + 1)))
      (seq 0 10)) (seq 0 5) = true.
Proof. repeat split; vm_compute; reflexivity. Qed.

(** ** Session duration *)

(** C5. The displayed duration is the floor of the elapsed milliseconds
    over 60000: it is the integer [d] with
    [60000 * d <= now - check_in_time < 60000 * (d + 1)].  It never
    decreases as [now] grows, it is 0 when [now] is the check-in time, and
    a check-in in the future gives a negative duration, not 0. *)
Theorem duration_is_floor (session : Dashboard.Session) (now : Z) :
  let d := Dashboard.duration now session in
  let elapsed := (now - Dashboard.check_in_time session)%Z in
  (60000 * d <= elapsed < 60000 * (d + 1))%Z /\
  (forall later, (now <= later)%Z -> (d <= Dashboard.duration later session)%Z) /\
  Dashboard.duration (Dashboard.check_in_time session) session = 0%Z /\
  ((now < Dashboard.check_in_time session)%Z -> (d < 0)%Z) /\
  ((Dashboard.check_in_time session <= now)%Z -> (0 <= d)%Z).
Proof.
  unfold Dashboard.duration, Js.floor_div. cbv zeta.
  change (1000 * 60)%Z with 60000%Z.
  generalize (Dashboard.check_in_time session). intros t.
  pose proof (Z.mul_div_le (now - t) 60000 eq_refl) as Hlo.
  pose proof (Z.mul_succ_div_gt (now - t) 60000 eq_refl) as Hhi.
  repeat split.
  - exact Hlo.
  - lia.
  - intros later Hl. apply Z.div_le_mono; lia.
  - now rewrite Z.sub_diag.
  - intros Hneg. apply Z.div_lt_upper_bound; lia.
  - intros Hpos. apply Z.div_pos; lia.
Qed.

(** C5 on the sample session: one minute and a half after the check-in,
    and one millisecond before it. *)
Lemma duration_is_floor_witness :
  (Dashboard.duration 1700000090000 Sample.session
     <= Dashboard.duration 1700000120000 Sample.session)%Z /\
  (Dashboard.duration 1699999999999 Sample.session < 0)%Z.
Proof.
  split.
  - apply (proj1 (proj2 (duration_is_floor Sample.session 1700000090000))). lia.
  - apply (proj1 (proj2 (proj2 (proj2
      (duration_is_floor Sample.session 1699999999999))))).
    reflexivity.
Defined.

Example duration_sample :
  Dashboard.duration 1700000090000 Sample.session = 1%Z /\
  Dashboard.duration 1700000120000 Sample.session = 2%Z /\
  Dashboard.duration 1699999999999 Sample.session = (-1)%Z /\
  Dashboard.duration 1699999940000 Sample.session = (-1)%Z /\
  Dashboard.duration 1699999939999 Sample.session = (-2)%Z.
Proof. repeat split; reflexivity. Qed.

(** ** The usage chart *)

Lemma round_nearest (q : Q) : Spec.nearest_integer (Js.round q) q.
Proof.
  intros k. unfold Js.round. set (z := Qfloor (q + (1 # 2))).
  pose proof (Qfloor_le (q + (1 # 2))) as Hlo.
  pose proof (Qlt_floor (q + (1 # 2))) as Hhi.
  fold z in Hlo, Hhi. rewrite inject_Z_plus in Hhi.
  change (inject_Z 1) with 1%Q in Hhi.
  assert (Hz : (Qabs (inject_Z z - q) <= 1 # 2)%Q).
  { apply Qabs_Qle_condition. split; lra. }
  assert (Hk : k = z \/ (k + 1 <= z)%Z \/ (z + 1 <= k)%Z) by lia.
  destruct Hk as [-> | [Hk | Hk]].
  - apply Qle_refl.
  - rewrite Zle_Qle, inject_Z_plus in Hk. change (inject_Z 1) with 1%Q in Hk.
    eapply Qle_trans; [exact Hz|].
    rewrite <- Qabs_opp. apply Qabs_ge. lra.
  - rewrite Zle_Qle, inject_Z_plus in Hk. change (inject_Z 1) with 1%Q in Hk.
    eapply Qle_trans; [exact Hz|].
    apply Qabs_ge. lra.
Qed.

Lemma number_or_zero_average (stat : Dashboard.DailyUsageStat) :
  (Js.number_or_zero (Dashboard.avg_duration stat) == Spec.average stat)%Q.
Proof.
  unfold Js.number_or_zero, Spec.average.
  destruct (Dashboard.avg_duration stat) as [q|]; [|reflexivity].
  destruct (Qeq_bool q 0) eqn:Hq; [|reflexivity].
  apply Qeq_bool_eq in Hq. now symmetry.
Qed.

Lemma nearest_integer_comp (z : Z) (q q' : Q) :
  (q == q')%Q -> Spec.nearest_integer z q -> Spec.nearest_integer z q'.
Proof.
  intros Hq H k. specialize (H k). now rewrite <- Hq.
Qed.

Lemma map_throwing_returns {A B E : Type} (f : A -> B + E) (l : list A) :
  (forall x, In x l -> exists y, f x = inl y) ->
  exists ys,
    Js.map_throwing f l = inl ys /\
    List.length ys = List.length l /\
    (forall i x, nth_error l i = Some x ->
       exists y, nth_error ys i = Some y /\ f x = inl y) /\
    (forall i y, nth_error ys i = Some y ->
       exists x, nth_error l i = Some x /\ f x = inl y).
Proof.
  induction l as [|a l IH]; intros Hall; simpl.
  - exists []. repeat split; auto; intros [|i] ?; discriminate.
  - destruct (Hall a (or_introl eq_refl)) as [b Hb].
    destruct IH as (ys & Hys & Hlen & Hfwd & Hbwd).
    { intros x Hx. apply Hall. now right. }
    rewrite Hb, Hys. exists (b :: ys). repeat split.
    + simpl. now rewrite Hlen.
    + intros [|i] x; simpl; [intros [= <-]; eauto | apply Hfwd].
    + intros [|i] y; simpl; [intros [= <-]; eauto | apply Hbwd].
Qed.

Lemma map_throwing_throws {A B E : Type} (f : A -> B + E) (l : list A) (e : E) :
  (forall x e', f x = inr e' -> e' = e) ->
  (exists x, In x l /\ exists e', f x = inr e') ->
  Js.map_throwing f l = inr e.
Proof.
  intros Hsame. induction l as [|a l IH]; intros (x & Hin & e' & Hx); [destruct Hin|].
  simpl. destruct (f a) as [b|ea] eqn:Ha.
  - destruct Hin as [->|Hin]; [congruence|].
    rewrite IH; eauto.
  - f_equal. eauto.
Qed.

Lemma chartPoint_returns (format_MMM_dd : string -> option string)
    (stat : Dashboard.DailyUsageStat) (point : Dashboard.ChartPoint) :
  Dashboard.chartPoint format_MMM_dd stat = inl point ->
  format_MMM_dd (Dashboard.date stat) = Some (Dashboard.point_date point) /\
  Dashboard.sessions point = Dashboard.total_sessions stat /\
  Dashboard.avgDuration point =
    Js.round (Js.number_or_zero (Dashboard.avg_duration stat)).
Proof.
  unfold Dashboard.chartPoint.
  destruct (format_MMM_dd (Dashboard.date stat)); [|discriminate].
  intros [= <-]. auto.
Qed.

(** C6, as stated, fails. The aggregation is not total: on three days of
    which the second has a date that is not one, [format] throws inside the
    [try]; no point is produced, the chart data stay empty, the error is
    logged and [loading] is cleared. *)
Lemma unparsable_date_drops_chart :
  let answered :=
    Dashboard.step Sample.format_MMM_dd
      (Dashboard.UsageSettled 2 (Async.Fulfilled Sample.usage_bad_date))
      Dashboard.mount in
  List.length (Dashboard.daily_stats Sample.usage_bad_date) = 3 /\
  Sample.format_MMM_dd "not-a-date" = None /\
  Dashboard.chartData Sample.format_MMM_dd Sample.usage_bad_date =
    inr Dashboard.RangeError /\
  Dashboard.usageData (Dashboard.comp answered) = [] /\
  Dashboard.console (Dashboard.comp answered) =
    [("Error fetching usage data:", Dashboard.RangeError)] /\
  Dashboard.loading (Dashboard.comp answered) = false.
Proof. repeat split; reflexivity. Qed.

(** C6, amended. When the date of every entry of [daily_stats] can be
    formatted, the chart has one point per entry, in reversed order: the
    entry at index [i] of the most-recent-first input is the point at index
    [length - 1 - i] of the output.  Each point carries the entry's
    formatted date and session count, and an average that is an integer
    nearest to the entry's average, [null] counting as 0 (so a [null]
    average gives 0).  Nothing is filtered and the fetch completes: the
    chart is stored and [loading] is cleared.  When the date of some entry
    cannot be formatted, [format] throws: no chart is produced, the chart
    data are left as they were, the error is logged and [loading] is
    cleared. *)
Theorem chartData_reverses (format_MMM_dd : string -> option string)
    (data : Dashboard.UsageAnalytics) :
  let stats := Dashboard.daily_stats data in
  ((forall stat, In stat stats -> format_MMM_dd (Dashboard.date stat) <> None) ->
   exists chart,
     Dashboard.chartData format_MMM_dd data = inl chart /\
     List.length chart = List.length stats /\
     (forall i stat, nth_error stats i = Some stat ->
        exists point,
          nth_error chart (List.length stats - 1 - i) = Some point /\
          format_MMM_dd (Dashboard.date stat) = Some (Dashboard.point_date point) /\
          Dashboard.sessions point = Dashboard.total_sessions stat /\
          Spec.nearest_integer (Dashboard.avgDuration point) (Spec.average stat) /\
          (Dashboard.avg_duration stat = None -> Dashboard.avgDuration point = 0%Z)) /\
     (forall j point, nth_error chart j = Some point ->
        exists stat,
          nth_error stats (List.length stats - 1 - j) = Some stat /\
          Dashboard.chartPoint format_MMM_dd stat = inl point) /\
     (forall c,
        Dashboard.fetchUsageData_resume format_MMM_dd (Async.Fulfilled data) c =
        (inl tt, Dashboard.setLoading false (Dashboard.setUsageData chart c)))) /\
  ((exists stat, In stat stats /\ format_MMM_dd (Dashboard.date stat) = None) ->
   Dashboard.chartData format_MMM_dd data = inr Dashboard.RangeError /\
   (forall c,
      Dashboard.fetchUsageData_resume format_MMM_dd (Async.Fulfilled data) c =
      (inl tt,
       Dashboard.setLoading false
         (Dashboard.console_error "Error fetching usage data:" Dashboard.RangeError c)))).
Proof.
  intros stats. split.
  - intros Hdates.
    destruct (map_throwing_returns (Dashboard.chartPoint format_MMM_dd) stats)
      as (points & Hpoints & Hlen & Hfwd & Hbwd).
    { intros stat Hstat. specialize (Hdates stat Hstat).
      unfold Dashboard.chartPoint.
      destruct (format_MMM_dd (Dashboard.date stat)); [eauto | contradiction]. }
    assert (Hchart : Dashboard.chartData format_MMM_dd data = inl (rev points)).
    { unfold Dashboard.chartData. fold stats. now rewrite Hpoints. }
    exists (rev points). split; [assumption|].
    split; [now rewrite length_rev|].
    split; [|split].
    + intros i stat Hi.
      assert (Hlt : i < List.length stats) by (apply nth_error_Some; congruence).
      destruct (Hfwd i stat Hi) as (point & Hpoint & Hf).
      exists point. split.
      { rewrite nth_error_rev, Hlen.
        destruct (Nat.ltb_spec (List.length stats - 1 - i) (List.length stats)); [|lia].
        replace (List.length stats - S (List.length stats - 1 - i)) with i by lia.
        assumption. }
      apply chartPoint_returns in Hf as (Hdate & Hsessions & Havg).
      repeat split; auto.
      * rewrite Havg.
        eapply nearest_integer_comp; [apply number_or_zero_average|].
        apply round_nearest.
      * intros Hnull. rewrite Havg, Hnull. reflexivity.
    + intros j point Hj.
      rewrite nth_error_rev, Hlen in Hj.
      destruct (Nat.ltb_spec j (List.length stats)); [|discriminate].
      replace (List.length stats - 1 - j) with (List.length stats - S j) by lia.
      destruct (Hbwd _ _ Hj) as (stat & Hstat & Hf). eauto.
    + intros c.
      unfold Dashboard.fetchUsageData_resume, Async.try_catch, Async.bind,
        Async.await, Async.eval, Async.ret, Async.modify.
      now rewrite Hchart.
  - intros Hbad.
    assert (Hchart : Dashboard.chartData format_MMM_dd data = inr Dashboard.RangeError).
    { unfold Dashboard.chartData. fold stats.
      rewrite (map_throwing_throws (Dashboard.chartPoint format_MMM_dd) stats
                 Dashboard.RangeError); [reflexivity| |].
      - intros stat e'. unfold Dashboard.chartPoint.
        destruct (format_MMM_dd (Dashboard.date stat)); [discriminate|].
        now intros [= <-].
      - destruct Hbad as (stat & Hin & Hnone). exists stat. split; [assumption|].
        exists Dashboard.RangeError. unfold Dashboard.chartPoint. now rewrite Hnone. }
    split; [assumption|].
    intros c.
    unfold Dashboard.fetchUsageData_resume, Async.try_catch, Async.bind,
      Async.await, Async.eval, Async.ret, Async.modify.
    now rewrite Hchart.
Qed.

(** The amended C6 on the three sample days, whose dates are dates, and
    on the three days of which one is not. *)
Lemma chartData_reverses_witness :
  (exists chart,
     Dashboard.chartData Sample.format_MMM_dd Sample.usage = inl chart /\
     List.length chart = 3) /\
  Dashboard.chartData Sample.format_MMM_dd Sample.usage_bad_date =
    inr Dashboard.RangeError.
Proof.
  split.
  - destruct (proj1 (chartData_reverses Sample.format_MMM_dd Sample.usage))
      as (chart & Hchart & Hlen & _).
    + intros stat [<-|[<-|[<-|[]]]]; discriminate.
    + exists chart. split; assumption.
  - apply (proj2 (chartData_reverses Sample.format_MMM_dd Sample.usage_bad_date)).
    exists {| Dashboard.date := "not-a-date"; Dashboard.total_sessions := 3%Z;
              Dashboard.avg_duration := None |}.
    split; [right; left; reflexivity | reflexivity].
Defined.

Example chartData_sample :
  Dashboard.chartData Sample.format_MMM_dd Sample.usage =
  inl [ {| Dashboard.point_date := "Mar 01"; Dashboard.sessions := 7%Z;
           Dashboard.avgDuration := 31%Z |};
        {| Dashboard.point_date := "Mar 02"; Dashboard.sessions := 0%Z;
           Dashboard.avgDuration := 0%Z |};
        {| Dashboard.point_date := "Mar 03"; Dashboard.sessions := 12%Z;
           Dashboard.avgDuration := 46%Z |} ].
Proof. reflexivity. Qed.

(** ** The polling life cycle *)

(** Whatever the answer and whatever [format] does, [fetchUsageData]
    completes, clears [loading] and leaves the overview and the sessions
    alone; the chart data change only when a chart was built. *)
Lemma fetchUsageData_resume_returns (format_MMM_dd : string -> option string)
    (r : Async.settled Dashboard.error Dashboard.UsageAnalytics)
    (c : Dashboard.component) :
  exists c',
    Dashboard.fetchUsageData_resume format_MMM_dd r c = (inl tt, c') /\
    Dashboard.loading c' = false /\
    Dashboard.overview c' = Dashboard.overview c /\
    Dashboard.activeSessions c' = Dashboard.activeSessions c.
Proof.
  unfold Dashboard.fetchUsageData_resume, Async.try_catch, Async.bind,
    Async.await, Async.eval, Async.ret, Async.throw, Async.modify.
  destruct r as [data|e]; simpl;
    [destruct (Dashboard.chartData format_MMM_dd data)|]; simpl; eauto.
Qed.

Arguments Dashboard.fetchUsageData_resume : simpl never.

Module Polling.

Section Poller.
Context {V D : Type}.
Variable endpoint : string.
Variable callback : D -> V -> V.

Local Abbreviation poller := (@ApiService.poller V).
Local Abbreviation step := (ApiService.step endpoint callback).
Local Abbreviation run := (ApiService.run endpoint callback).

Lemma resume_frame (r : Async.settled ApiService.error D)
    (rest : list (nat * string)) (p : poller) :
  let q := ApiService.resume (ApiService.poll_resume callback r) rest p in
  ApiService.interval q = ApiService.interval p /\
  ApiService.issued q = ApiService.issued p /\
  ApiService.unhandled q = ApiService.unhandled p /\
  ApiService.pending q = rest.
Proof. destruct r; simpl; auto. Qed.

Lemma step_interval_off (ev : ApiService.event) (p : poller) :
  ApiService.interval p = false ->
  ApiService.interval (step ev p) = false /\
  ApiService.issued (step ev p) = ApiService.issued p.
Proof.
  intros Hoff. destruct ev as [| |id r]; simpl.
  - rewrite Hoff. auto.
  - auto.
  - destruct (Async.take id (ApiService.pending p)) as [[req rest]|]; [|auto].
    destruct (resume_frame r rest p) as (Hi & Hn & _). simpl in Hi, Hn.
    rewrite Hi, Hn. auto.
Qed.

Lemma run_interval_off (evs : list ApiService.event) (p : poller) :
  ApiService.interval p = false ->
  ApiService.interval (run evs p) = false /\
  ApiService.issued (run evs p) = ApiService.issued p.
Proof.
  revert p. induction evs as [|ev evs IH]; intros p Hoff; simpl; [auto|].
  destruct (step_interval_off ev p Hoff) as [Hoff' Hn].
  destruct (IH _ Hoff') as [H1 H2]. rewrite <- Hn. auto.
Qed.



End Poller.

Section Dashboard.
Variable format_MMM_dd : string -> option string.

Local Abbreviation step := (Dashboard.step format_MMM_dd).
Local Abbreviation run := (Dashboard.run format_MMM_dd).

Lemma dashboard_step_interval_off (ev : Dashboard.event) (p : Dashboard.page) :
  Dashboard.interval p = false ->
  Dashboard.interval (step ev p) = false /\
  Dashboard.issued (step ev p) = Dashboard.issued p.
Proof.
  intros Hoff. destruct ev as [| |id r|id r|id r]; simpl.
  - rewrite Hoff. auto.
  - auto.
  - destruct (Async.take id (Dashboard.pending p)) as [[[| |days] rest]|]; auto.
    destruct r; simpl; auto.
  - destruct (Async.take id (Dashboard.pending p)) as [[[| |days] rest]|]; auto.
    destruct r; simpl; auto.
  - destruct (Async.take id (Dashboard.pending p)) as [[[| |days] rest]|]; auto.
    destruct (fetchUsageData_resume_returns format_MMM_dd r (Dashboard.comp p))
      as (c' & Hc' & _).
    unfold Dashboard.resume. rewrite Hc'. simpl. auto.
Qed.

Lemma dashboard_run_interval_off (evs : list Dashboard.event) (p : Dashboard.page) :
  Dashboard.interval p = false ->
  Dashboard.interval (run evs p) = false /\
  Dashboard.issued (run evs p) = Dashboard.issued p.
Proof.
  revert p. induction evs as [|ev evs IH]; intros p Hoff; simpl; [auto|].
  destruct (dashboard_step_interval_off ev p Hoff) as [Hoff' Hn].
  destruct (IH _ Hoff') as [H1 H2]. rewrite <- Hn. auto.
Qed.

End Dashboard.

End Polling.

(** C2, as stated, fails. A fetch in flight when the view is torn down
    and fulfilled afterwards is applied: [startPolling] hands the payload
    to the callback, and [fetchOverview] hands it to [setOverview]. *)
Lemma late_result_is_applied :
  let torn_down :=
    ApiService.run "/api/sessions/active" Sample.keep_last
      [ApiService.Cleanup] Sample.poller_started in
  let later :=
    ApiService.step "/api/sessions/active" Sample.keep_last
      (ApiService.Settled 0 (Async.Fulfilled 42)) torn_down in
  ApiService.interval torn_down = false /\
  ApiService.pending torn_down = [(0, "/api/sessions/active")] /\
  ApiService.target (ApiService.env torn_down) = 0 /\
  ApiService.target (ApiService.env later) = 42 /\
  let unmounted := Dashboard.step Sample.format_MMM_dd Dashboard.Unmount Dashboard.mount in
  let resolved :=
    Dashboard.step Sample.format_MMM_dd
      (Dashboard.OverviewSettled 0 (Async.Fulfilled Sample.overview_40)) unmounted in
  Dashboard.interval unmounted = false /\
  Dashboard.overview (Dashboard.comp unmounted) = Dashboard.overview Dashboard.initial /\
  Dashboard.overview (Dashboard.comp resolved) = Sample.overview_40 /\
  Dashboard.overview (Dashboard.comp resolved) <>
    Dashboard.overview (Dashboard.comp unmounted).
Proof. repeat split; try reflexivity. discriminate. Qed.

(** C2, amended. Once the cleanup function ran ([clearInterval]), no
    event makes the controller send another request: the number of
    requests sent stays what it was at teardown, for [startPolling] and for
    the dashboard's effect.  The result of a fetch that was in flight at
    teardown is not discarded: when it is fulfilled afterwards,
    [startPolling] calls the callback with it, and the dashboard passes it
    to [setOverview] or [setActiveSessions]. *)
Theorem cleanup_stops_ticks_only :
  (forall (V D : Type) (endpoint : string) (callback : D -> V -> V)
          (p : @ApiService.poller V) (evs : list (@ApiService.event D)),
     let q := ApiService.run endpoint callback evs (ApiService.cleanup p) in
     ApiService.interval q = false /\ ApiService.issued q = ApiService.issued p) /\
  (forall (V D : Type) (endpoint : string) (callback : D -> V -> V)
          (p : @ApiService.poller V) (id : nat) (req : string)
          (rest : list (nat * string)) (data : D),
     Async.take id (ApiService.pending p) = Some (req, rest) ->
     let q := ApiService.step endpoint callback
                (ApiService.Settled id (Async.Fulfilled data)) (ApiService.cleanup p) in
     ApiService.target (ApiService.env q) =
       callback data (ApiService.target (ApiService.env p))) /\
  (forall (format_MMM_dd : string -> option string) (p : Dashboard.page)
          (evs : list Dashboard.event),
     let q := Dashboard.run format_MMM_dd evs (Dashboard.cleanup p) in
     Dashboard.interval q = false /\ Dashboard.issued q = Dashboard.issued p) /\
  (forall (format_MMM_dd : string -> option string) (p : Dashboard.page) (id : nat)
          (rest : list (nat * Dashboard.request)) (data : Dashboard.OverviewSnapshot),
     Async.take id (Dashboard.pending p) = Some (Dashboard.GetOverview, rest) ->
     let q := Dashboard.step format_MMM_dd
                (Dashboard.OverviewSettled id (Async.Fulfilled data))
                (Dashboard.cleanup p) in
     Dashboard.overview (Dashboard.comp q) = data) /\
  (forall (format_MMM_dd : string -> option string) (p : Dashboard.page) (id : nat)
          (rest : list (nat * Dashboard.request)) (data : list Dashboard.Session),
     Async.take id (Dashboard.pending p) = Some (Dashboard.GetActiveSessions, rest) ->
     let q := Dashboard.step format_MMM_dd
                (Dashboard.ActiveSessionsSettled id (Async.Fulfilled data))
                (Dashboard.cleanup p) in
     Dashboard.activeSessions (Dashboard.comp q) = data).
Proof.
  split; [|split; [|split; [|split]]].
  - intros V D endpoint callback p evs.
    apply (Polling.run_interval_off endpoint callback evs (ApiService.cleanup p)).
    reflexivity.
  - intros V D endpoint callback p id req rest data Htake. simpl.
    now rewrite Htake.
  - intros format_MMM_dd p evs.
    apply (Polling.dashboard_run_interval_off format_MMM_dd evs (Dashboard.cleanup p)).
    reflexivity.
  - intros format_MMM_dd p id rest data Htake. simpl. now rewrite Htake.
  - intros format_MMM_dd p id rest data Htake. simpl. now rewrite Htake.
Qed.

(** The amended C2 on the sample poller and on a freshly mounted
    dashboard, both torn down with their first fetch in flight. *)
Lemma cleanup_stops_ticks_only_witness :
  ApiService.target (ApiService.env
    (ApiService.step "/api/sessions/active" Sample.keep_last
       (ApiService.Settled 0 (Async.Fulfilled 42))
       (ApiService.cleanup Sample.poller_started))) = 42 /\
  Dashboard.overview (Dashboard.comp
    (Dashboard.step Sample.format_MMM_dd
       (Dashboard.OverviewSettled 0 (Async.Fulfilled Sample.overview_40))
       (Dashboard.cleanup Dashboard.mount))) = Sample.overview_40 /\
  Dashboard.activeSessions (Dashboard.comp
    (Dashboard.step Sample.format_MMM_dd
       (Dashboard.ActiveSessionsSettled 1 (Async.Fulfilled [Sample.session]))
       (Dashboard.cleanup Dashboard.mount))) = [Sample.session].
Proof.
  destruct cleanup_stops_ticks_only as (_ & Hpoll & _ & Hoverview & Hsessions).
  split; [|split].
  - apply (Hpoll nat nat "/api/sessions/active" Sample.keep_last
             Sample.poller_started 0 "/api/sessions/active" [] 42).
    reflexivity.
  - apply (Hoverview Sample.format_MMM_dd Dashboard.mount 0
             [(1, Dashboard.GetActiveSessions); (2, Dashboard.GetUsageAnalytics 7)]).
    reflexivity.
  - apply (Hsessions Sample.format_MMM_dd Dashboard.mount 1
             [(0, Dashboard.GetOverview); (2, Dashboard.GetUsageAnalytics 7)]).
    reflexivity.
Defined.



Example failed_fetch_sample :
  let q := Dashboard.run Sample.format_MMM_dd
             [Dashboard.OverviewSettled 0 (Async.Fulfilled Sample.overview_40);
              Dashboard.Tick;
              Dashboard.OverviewSettled 3 (Async.Rejected "Network Error");
              Dashboard.Tick]
             Dashboard.mount in
  Dashboard.overview (Dashboard.comp q) = Sample.overview_40 /\
  Dashboard.console (Dashboard.comp q) = [("Error fetching overview:", "Network Error")] /\
  Dashboard.issued q = 7 /\
  Dashboard.unhandled q = [].
Proof. repeat split; reflexivity. Qed.

(** ** Hall selection *)

Module Halls.

Import SeatLayout.

Lemma take_spec {R : Type} (id : nat) (l : list (nat * R)) (r : R)
    (rest : list (nat * R)) :
  Async.take id l = Some (r, rest) ->
  In (id, r) l /\ forall x, In x rest -> In x l.
Proof.
  revert r rest. induction l as [|[i r0] l IH]; intros r rest; simpl; [discriminate|].
  destruct (Nat.eqb_spec i id) as [->|Hne].
  - intros [= <- <-]. auto.
  - destruct (Async.take id l) as [[r' rest']|]; [|discriminate].
    intros [= <- <-]. destruct (IH r' rest' eq_refl) as [Hin Hsub].
    split; [now right|]. intros x [<-|Hx]; [now left | right; auto].
Qed.

Lemma take_last {R : Type} (id : nat) (l : list (nat * R)) (r : R) :
  (forall i x, In (i, x) l -> i <> id) ->
  Async.take id (l ++ [(id, r)]) = Some (r, l).
Proof.
  induction l as [|[i r0] l IH]; intros Hfresh; simpl.
  - now rewrite Nat.eqb_refl.
  - destruct (Nat.eqb_spec i id) as [->|Hne].
    + exfalso. apply (Hfresh id r0); [now left | reflexivity].
    + rewrite IH; [reflexivity|]. intros j x Hj. apply (Hfresh j x). now right.
Qed.

Lemma well_formed_send (r : request) (p : page) :
  well_formed p ->
  (forall closure, r = GetHalls closure -> closure = selectedHallId initial) ->
  well_formed (send r p).
Proof.
  intros [Hid Hcl] Hr. split; simpl.
  - intros i x Hin. apply in_app_or in Hin as [Hin|[[= <- <-]|[]]]; [|lia].
    specialize (Hid _ _ Hin). lia.
  - intros i closure Hin. apply in_app_or in Hin as [Hin|[[= <- ->]|[]]]; eauto.
Qed.

Lemma well_formed_rest (p : page) (c : component) (rest : list (nat * request))
    (u : list error) :
  well_formed p ->
  (forall x, In x rest -> In x (pending p)) ->
  well_formed {| comp := c; pending := rest; issued := issued p; unhandled := u |}.
Proof.
  intros [Hid Hcl] Hsub. split; simpl; intros; eauto.
Qed.

Lemma well_formed_fetchSeats (p : page) : well_formed p -> well_formed (fetchSeats p).
Proof.
  intros Hwf. unfold fetchSeats. apply well_formed_send; [|discriminate].
  apply (well_formed_rest p); auto.
Qed.

Lemma well_formed_rerender (previous : nat) (p : page) :
  well_formed p -> well_formed (rerender previous p).
Proof.
  intros Hwf. unfold rerender, effect_selectedHallId.
  destruct (_ =? previous); [assumption|].
  destruct (Js.truthy _); [now apply well_formed_fetchSeats | assumption].
Qed.

Lemma well_formed_resume (k : @Async.M component error unit)
    (rest : list (nat * request)) (p : page) :
  well_formed p ->
  (forall x, In x rest -> In x (pending p)) ->
  well_formed (resume k rest p).
Proof.
  intros Hwf Hsub. unfold resume.
  destruct (k (comp p)) as [[[]|e] c]; now apply (well_formed_rest p).
Qed.

Lemma well_formed_step (ev : event) (p : page) :
  well_formed p -> well_formed (step ev p).
Proof.
  intros Hwf. destruct ev as [value| |seat|id r|id r]; simpl.
  - apply well_formed_rerender. now apply (well_formed_rest p).
  - now apply well_formed_fetchSeats.
  - now apply (well_formed_rest p).
  - destruct (Async.take id (pending p)) as [[[closure|hallId] rest]|] eqn:Htake; auto.
    apply well_formed_rerender, well_formed_resume; auto.
    now apply take_spec in Htake.
  - destruct (Async.take id (pending p)) as [[[closure|hallId] rest]|] eqn:Htake; auto.
    apply well_formed_resume; auto.
    now apply take_spec in Htake.
Qed.

Lemma well_formed_mount : well_formed mount.
Proof.
  split; simpl.
  - intros i r [[= <- <-]|[[= <- <-]|[]]]; lia.
  - intros i closure [[= <- <-]|[[=]|[]]]. reflexivity.
Qed.

Lemma well_formed_run (evs : list event) (p : page) :
  well_formed p -> well_formed (run evs p).
Proof.
  revert p. induction evs as [|ev evs IH]; intros p Hwf; simpl; [assumption|].
  now apply IH, well_formed_step.
Qed.

(** With the closure of the first render, the rest of [fetchHalls] never
    touches the selection. *)
Lemma fetchHalls_resume_selection (r : Async.settled error (list Hall)) (c : component) :
  selectedHallId (snd (fetchHalls_resume (selectedHallId initial) r c)) =
  selectedHallId c.
Proof. destruct r as [[|first data]|e]; reflexivity. Qed.

Lemma halls_settled_selection (id : nat) (r : Async.settled error (list Hall)) (p : page) :
  well_formed p ->
  selectedHallId (comp (step (HallsSettled id r) p)) = selectedHallId (comp p) /\
  pending (step (HallsSettled id r) p) =
    match Async.take id (pending p) with
    | Some (GetHalls _, rest) => rest
    | _ => pending p
    end.
Proof.
  intros [_ Hcl]. simpl.
  destruct (Async.take id (pending p)) as [[[closure|hallId] rest]|] eqn:Htake; auto.
  apply take_spec in Htake as [Hin _]. apply Hcl in Hin. subst closure.
  pose proof (fetchHalls_resume_selection r (comp p)) as Hsel.
  unfold rerender, resume.
  destruct (fetchHalls_resume (selectedHallId initial) r (comp p)) as [[[]|e] c];
    simpl in *; rewrite Hsel, Nat.eqb_refl; auto.
Qed.

End Halls.

(** C9, on the code. The selection starts at the fixed identifier 1 and
    the answer of the halls endpoint never changes it, whatever happened
    before and whatever the answer: [fetchHalls] runs once, with the
    [selectedHallId] of the first render in its closure, so its guard
    [!selectedHallId] is false.  With a first hall of id 7 the selection
    stays 1 and no seats are requested for hall 7; the branch would select
    hall 7 only under a closure that saw no selection. *)
Theorem halls_response_never_selects
    (evs : list SeatLayout.event) (id : nat)
    (r : Async.settled SeatLayout.error (list SeatLayout.Hall)) :
  let p := SeatLayout.run evs SeatLayout.mount in
  SeatLayout.selectedHallId (SeatLayout.comp (SeatLayout.step (SeatLayout.HallsSettled id r) p))
    = SeatLayout.selectedHallId (SeatLayout.comp p) /\
  SeatLayout.selectedHallId (SeatLayout.comp SeatLayout.mount) = 1 /\
  (let answered :=
     SeatLayout.step (SeatLayout.HallsSettled 0 (Async.Fulfilled Sample.halls_7_first))
       SeatLayout.mount in
   SeatLayout.halls (SeatLayout.comp answered) = Sample.halls_7_first /\
   SeatLayout.selectedHallId (SeatLayout.comp answered) = 1 /\
   SeatLayout.pending answered = [(1, SeatLayout.GetHallSeats 1)]) /\
  SeatLayout.selectedHallId
    (snd (SeatLayout.fetchHalls_resume 0 (Async.Fulfilled Sample.halls_7_first)
            SeatLayout.initial)) = 7.
Proof.
  intros p. split; [|repeat split].
  apply Halls.halls_settled_selection, Halls.well_formed_run, Halls.well_formed_mount.
Qed.

(** C4, as stated, fails. With the seats of hall 1 displayed, selecting
    hall 2 sends the request for hall 2 and leaves the snapshot of hall 1
    in place: its seats are still in the grid while that request is in
    flight. *)
Lemma selecting_hall_keeps_old_snapshot :
  let selected := SeatLayout.step (SeatLayout.SelectHall 2) Sample.hall_1_loaded in
  SeatLayout.seats (SeatLayout.comp Sample.hall_1_loaded) = Sample.snapshot /\
  SeatLayout.selectedHallId (SeatLayout.comp selected) = 2 /\
  SeatLayout.pending selected =
    [(0, SeatLayout.GetHalls 1); (2, SeatLayout.GetHallSeats 2)] /\
  SeatLayout.seats (SeatLayout.comp selected) = Sample.snapshot /\
  SeatLayout.seats (SeatLayout.comp selected) <> [] /\
  SeatLayout.displayedSeats selected = [Sample.seat_R1S10; Sample.seat_R3S7] /\
  In Sample.seat_R3S7 (SeatLayout.displayedSeats selected).
Proof.
  repeat split; try reflexivity.
  - discriminate.
  - right. left. reflexivity.
Qed.

(** C4, amended. In any state the view can reach, selecting a hall [B]
    that differs from the current selection (and whose id is not 0) makes
    [B] the selection and at once sends one request for the seats of [B],
    numbered after all earlier ones.  The snapshot already loaded is kept,
    and the grid keeps showing it, until a response is applied.  When the
    request for [B] is fulfilled the snapshot is replaced wholesale by the
    seats received; when it fails the old snapshot stays. *)
Theorem selecting_hall_refetches (evs : list SeatLayout.event) (B : nat) :
  let p := SeatLayout.run evs SeatLayout.mount in
  let q := SeatLayout.step (SeatLayout.SelectHall B) p in
  B <> SeatLayout.selectedHallId (SeatLayout.comp p) -> B <> 0 ->
  SeatLayout.selectedHallId (SeatLayout.comp q) = B /\
  SeatLayout.pending q =
    SeatLayout.pending p ++ [(SeatLayout.issued p, SeatLayout.GetHallSeats B)] /\
  SeatLayout.issued q = S (SeatLayout.issued p) /\
  SeatLayout.seats (SeatLayout.comp q) = SeatLayout.seats (SeatLayout.comp p) /\
  SeatLayout.displayedGrid q = SeatLayout.displayedGrid p /\
  (forall data,
     let arrived := SeatLayout.step
       (SeatLayout.SeatsSettled (SeatLayout.issued p) (Async.Fulfilled data)) q in
     SeatLayout.seats (SeatLayout.comp arrived) = data /\
     SeatLayout.displayedGrid arrived = SeatLayout.renderSeatGrid data /\
     SeatLayout.pending arrived = SeatLayout.pending p) /\
  (forall e,
     let failed := SeatLayout.step
       (SeatLayout.SeatsSettled (SeatLayout.issued p) (Async.Rejected e)) q in
     SeatLayout.seats (SeatLayout.comp failed) = SeatLayout.seats (SeatLayout.comp p) /\
     SeatLayout.unhandled failed = SeatLayout.unhandled p).
Proof.
  intros p q HB H0.
  assert (Hwf : SeatLayout.well_formed p)
    by apply Halls.well_formed_run, Halls.well_formed_mount.
  assert (Hq : q = SeatLayout.fetchSeats
                     (SeatLayout.with_comp (SeatLayout.setSelectedHallId B) p)).
  { unfold q. simpl. unfold SeatLayout.rerender, SeatLayout.effect_selectedHallId.
    simpl. destruct (Nat.eqb_spec B (SeatLayout.selectedHallId (SeatLayout.comp p)));
      [contradiction|].
    unfold Js.truthy. destruct (Nat.eqb_spec B 0); [contradiction|]. reflexivity. }
  assert (Htake : Async.take (SeatLayout.issued p) (SeatLayout.pending q) =
                  Some (SeatLayout.GetHallSeats B, SeatLayout.pending p)).
  { rewrite Hq. simpl. apply Halls.take_last.
    intros i x Hin. destruct Hwf as [Hid _]. specialize (Hid _ _ Hin). lia. }
  repeat split; try (rewrite Hq; reflexivity).
  - simpl. rewrite Htake. rewrite Hq. reflexivity.
  - unfold SeatLayout.displayedGrid. simpl. rewrite Htake. rewrite Hq. reflexivity.
  - simpl. rewrite Htake. reflexivity.
  - simpl. rewrite Htake. rewrite Hq. reflexivity.
  - simpl. rewrite Htake. rewrite Hq. reflexivity.
Qed.

(** The amended C4 when hall 2 is selected with the seats of hall 1
    displayed. *)
Lemma selecting_hall_refetches_witness :
  let q := SeatLayout.step (SeatLayout.SelectHall 2) Sample.hall_1_loaded in
  SeatLayout.selectedHallId (SeatLayout.comp q) = 2 /\
  SeatLayout.pending q =
    SeatLayout.pending Sample.hall_1_loaded ++
    [(SeatLayout.issued Sample.hall_1_loaded, SeatLayout.GetHallSeats 2)] /\
  SeatLayout.issued q = S (SeatLayout.issued Sample.hall_1_loaded) /\
  SeatLayout.seats (SeatLayout.comp q) =
    SeatLayout.seats (SeatLayout.comp Sample.hall_1_loaded) /\
  SeatLayout.displayedGrid q = SeatLayout.displayedGrid Sample.hall_1_loaded.
Proof.
  destruct (selecting_hall_refetches
              [SeatLayout.SeatsSettled 1 (Async.Fulfilled Sample.snapshot)] 2)
    as (H1 & H2 & H3 & H4 & H5 & _).
  - vm_compute. lia.
  - lia.
  - repeat split; assumption.
Defined.

(** A late answer for the hall selected before still replaces the
    snapshot: the responses are applied in the order they arrive. *)
Example late_answer_for_previous_hall :
  let p := SeatLayout.run
    [ SeatLayout.SelectHall 2;
      SeatLayout.SeatsSettled 2 (Async.Fulfilled [Sample.seat_R1S10]);
      SeatLayout.SeatsSettled 1 (Async.Fulfilled [Sample.seat_R3S7]) ]
    SeatLayout.mount in
  SeatLayout.selectedHallId (SeatLayout.comp p) = 2 /\
  SeatLayout.seats (SeatLayout.comp p) = [Sample.seat_R3S7].
Proof. split; reflexivity. Qed.

(** ** Digits *)

Module Digits.

Lemma to_number_from_uint (d : Decimal.uint) (acc : N) :
  Js.to_number_from acc (NilEmpty.string_of_uint d) =
  N.of_nat (Nat.of_uint_acc d (N.to_nat acc)).
Proof.
  revert acc.
  induction d as [|d IH|d IH|d IH|d IH|d IH|d IH|d IH|d IH|d IH|d IH];
    intros acc;
    cbn [NilEmpty.string_of_uint Js.to_number_from Nat.of_uint_acc];
    [now rewrite N2Nat.id | ..];
    rewrite IH; do 2 f_equal; rewrite Nat.tail_mul_spec;
    match goal with
    | |- context [(N_of_ascii ?c - 48)%N] =>
        let k := eval vm_compute in (N_of_ascii c - 48)%N in
        change (N_of_ascii c - 48)%N with k
    end; lia.
Qed.

(** Reading back the digits written for [n] gives [n]. *)
Lemma to_number_template (n : nat) : Js.to_number (Js.template_nat n) = N.of_nat n.
Proof.
  unfold Js.to_number, Js.template_nat.
  rewrite to_number_from_uint. simpl.
  change (Nat.of_uint_acc (Nat.to_uint n) 0) with (Nat.of_uint (Nat.to_uint n)).
  now rewrite Unsigned.of_to.
Qed.

Lemma template_nat_nonempty (n : nat) : Js.template_nat n <> EmptyString.
Proof.
  unfold Js.template_nat. intros H.
  pose proof (NilEmpty.usu (Nat.to_uint n)) as Hu. rewrite H in Hu.
  simpl in Hu. injection Hu as Hu.
  pose proof (Unsigned.of_to n) as Hn. rewrite <- Hu in Hn. simpl in Hn.
  subst n. discriminate Hu.
Qed.

Lemma take_digits_run (a b : string) (sep : ascii) :
  Spec.all_digits a = true -> Js.is_digit sep = false ->
  Js.take_digits (a ++ String sep b) = a.
Proof.
  intros Ha Hsep. induction a as [|c a IH]; simpl in *.
  - now rewrite Hsep.
  - apply andb_prop in Ha as [Hc Ha]. rewrite Hc. now rewrite IH.
Qed.

Lemma take_digits_all (a : string) :
  Spec.all_digits a = true -> Js.take_digits a = a.
Proof.
  induction a as [|c a IH]; simpl; [reflexivity|].
  intros Ha. apply andb_prop in Ha as [Hc Ha]. rewrite Hc. now rewrite IH.
Qed.

(** The first run of digits of [pre ++ a ++ sep ++ b], when [pre] has no
    digit, [a] is a non-empty run of digits and [sep] is not a digit. *)
Lemma match_digits_run (pre a b : string) (sep : ascii) :
  Spec.has_digit pre = false -> Spec.all_digits a = true -> a <> EmptyString ->
  Js.is_digit sep = false ->
  Js.match_digits (pre ++ a ++ String sep b) = Some a.
Proof.
  intros Hpre Ha Hne Hsep. induction pre as [|c pre IH]; simpl in *.
  - destruct a as [|c a]; [contradiction|]. simpl in *.
    apply andb_prop in Ha as [Hc Ha]. rewrite Hc.
    now rewrite take_digits_run.
  - apply orb_false_elim in Hpre as [Hc Hpre]. rewrite Hc. auto.
Qed.

Lemma match_digits_last (pre a : string) :
  Spec.has_digit pre = false -> Spec.all_digits a = true -> a <> EmptyString ->
  Js.match_digits (pre ++ a) = Some a.
Proof.
  intros Hpre Ha Hne. induction pre as [|c pre IH]; simpl in *.
  - destruct a as [|c a]; [contradiction|]. simpl in *.
    apply andb_prop in Ha as [Hc Ha]. rewrite Hc.
    now rewrite take_digits_all.
  - apply orb_false_elim in Hpre as [Hc Hpre]. rewrite Hc. auto.
Qed.

Lemma strip_app (a b : string) :
  Js.strip_non_digits (a ++ b) =
  (Js.strip_non_digits a ++ Js.strip_non_digits b)%string.
Proof.
  induction a as [|c a IH]; simpl; [reflexivity|].
  destruct (Js.is_digit c); simpl; now rewrite IH.
Qed.

Lemma strip_all_digits (a : string) :
  Spec.all_digits a = true -> Js.strip_non_digits a = a.
Proof.
  induction a as [|c a IH]; simpl; [reflexivity|].
  intros Ha. apply andb_prop in Ha as [Hc Ha]. rewrite Hc. now rewrite IH.
Qed.

Lemma match_digits_seatNumber (row col : nat) :
  Js.match_digits (SeatLayout.seatNumber row col) = Some (Js.template_nat (row + 1)).
Proof.
  unfold SeatLayout.seatNumber.
  apply (match_digits_run "R" (Js.template_nat (row + 1)) (Js.template_nat (col + 1)) "S");
    try reflexivity.
  - apply SeatNumbers.template_nat_all_digits.
  - apply template_nat_nonempty.
Qed.

End Digits.

(** ** The position line, the seat box and the grid together *)

Lemma position_of_run (seat : SeatLayout.Seat) (d : string) :
  Js.match_digits (SeatLayout.seat_number seat) = Some d ->
  SeatLayout.position seat =
  Some (((Js.to_number d + 9) / 10)%N,
        (if (Js.to_number d mod 10 =? 0)%N then 10 else Js.to_number d mod 10)%N).
Proof.
  intros Hd.
  unfold SeatLayout.position, SeatLayout.positionRow, SeatLayout.positionColumn.
  now rewrite Hd.
Qed.

(** X1. For a seat numbered [R{row+1}S{col+1}] whose row number is at
    most [Number.MAX_SAFE_INTEGER], whatever the column, the position line
    is computed from the row number alone: the row shown is
    [ceil((row+1)/10)], the column shown is [(row+1) mod 10] (10 for a
    multiple of 10), and two seats of the same grid row are announced at
    the same position. *)
Theorem position_reads_row_number (seat : SeatLayout.Seat) (row col : nat) :
  (N.of_nat (row + 1) <= Js.MAX_SAFE_INTEGER)%N ->
  SeatLayout.seat_number seat = SeatLayout.seatNumber row col ->
  SeatLayout.position seat =
    Some (((N.of_nat (row + 1) + 9) / 10)%N,
          (if (N.of_nat (row + 1) mod 10 =? 0)%N then 10
           else N.of_nat (row + 1) mod 10)%N) /\
  forall other col',
    SeatLayout.seat_number other = SeatLayout.seatNumber row col' ->
    SeatLayout.position other = SeatLayout.position seat.
Proof.
  intros _ Hnum.
  assert (Hlaw : forall s c,
            SeatLayout.seat_number s = SeatLayout.seatNumber row c ->
            SeatLayout.position s =
            Some (((N.of_nat (row + 1) + 9) / 10)%N,
                  (if (N.of_nat (row + 1) mod 10 =? 0)%N then 10
                   else N.of_nat (row + 1) mod 10)%N)).
  { intros s c Hs.
    rewrite (position_of_run s (Js.template_nat (row + 1))).
    - now rewrite Digits.to_number_template.
    - rewrite Hs. apply Digits.match_digits_seatNumber. }
  split.
  - now apply (Hlaw seat col).
  - intros other col' Hother.
    rewrite (Hlaw other col' Hother). symmetry. now apply (Hlaw seat col).
Qed.

Lemma position_reads_row_number_witness :
  SeatLayout.position Sample.seat_R3S7 =
    Some (((N.of_nat (2 + 1) + 9) / 10)%N,
          (if (N.of_nat (2 + 1) mod 10 =? 0)%N then 10
           else N.of_nat (2 + 1) mod 10)%N).
Proof.
  apply (proj1 (position_reads_row_number Sample.seat_R3S7 2 6
                  ltac:(vm_compute; discriminate) eq_refl)).
Defined.

(** X2. For a seat whose seat number has, as its first run of digits,
    the decimal digits of a number [n] between 1 and
    [Number.MAX_SAFE_INTEGER] (the row number, for a seat of the grid; the
    seat's own number, for a seat numbered [S37]), the position line
    inverts the numbering of seats in rows of ten: the column shown is
    between 1 and 10, the row shown is at least 1, and
    [10 * (row - 1) + column = n]. *)
Theorem position_inverts_sequential_numbering
    (seat : SeatLayout.Seat) (digits : string) :
  Js.match_digits (SeatLayout.seat_number seat) = Some digits ->
  (1 <= Js.to_number digits <= Js.MAX_SAFE_INTEGER)%N ->
  exists row column,
    SeatLayout.position seat = Some (row, column) /\
    (1 <= row)%N /\ (1 <= column <= 10)%N /\
    (10 * (row - 1) + column = Js.to_number digits)%N.
Proof.
  intros Hrun [Hn _].
  rewrite (position_of_run seat digits Hrun).
  eexists _, _. split; [reflexivity|].
  generalize dependent (Js.to_number digits). intros m Hm.
  destruct (N.eqb_spec (m mod 10) 0);
    zify; Z.to_euclidean_division_equations; lia.
Qed.

(** X2 on the seat numbered [S37] and on the grid seat [R3S7], whose
    first run of digits is its row number. *)
Lemma position_inverts_sequential_numbering_witness :
  (exists row column,
     SeatLayout.position Sample.seat_S37 = Some (row, column) /\
     (1 <= row)%N /\ (1 <= column <= 10)%N /\
     (10 * (row - 1) + column = Js.to_number "37")%N) /\
  (exists row column,
     SeatLayout.position Sample.seat_R3S7 = Some (row, column) /\
     (1 <= row)%N /\ (1 <= column <= 10)%N /\
     (10 * (row - 1) + column = Js.to_number "3")%N).
Proof.
  split.
  - apply (position_inverts_sequential_numbering Sample.seat_S37 "37").
    + reflexivity.
    + vm_compute. split; discriminate.
  - apply (position_inverts_sequential_numbering Sample.seat_R3S7 "3").
    + reflexivity.
    + vm_compute. split; discriminate.
Defined.

Example position_S37 : SeatLayout.position Sample.seat_S37 = Some (4%N, 7%N).
Proof. reflexivity. Qed.

(** X3. Every seat box of the 5 by 10 grid can be clicked safely: the
    panel of a seat taken from a cell of the grid is rendered, never
    throws, and reads row 1 and, as column, the grid row of the cell. *)
Theorem clicked_grid_seat_has_panel
    (seats : list SeatLayout.Seat) (row col key : nat) (seat : SeatLayout.Seat)
    (p : SeatLayout.page) :
  SeatLayout.cell_at (SeatLayout.renderSeatGrid seats) row col =
    Some (SeatLayout.SeatBox key seat) ->
  let clicked := SeatLayout.step (SeatLayout.ClickSeat seat) p in
  SeatLayout.selectedSeatPanel (SeatLayout.selectedSeat (SeatLayout.comp clicked)) =
    SeatLayout.Panel (SeatLayout.seatNumber row col) 1 (N.of_nat (row + 1)).
Proof.
  intros Hcell. change (SeatLayout.renderSeatGrid seats)
    with (SeatLayout.renderSeatGridOf 5 10 seats) in Hcell.
  destruct (SeatGrid.cell_at_inside _ _ _ _ _ _ Hcell) as [Hr Hc].
  rewrite SeatGrid.cell_at_render in Hcell by assumption.
  injection Hcell as Hcell.
  apply SeatGrid.renderCell_seat in Hcell as (_ & b & a & _ & Hnum & _).
  simpl. unfold SeatLayout.selectedSeatPanel.
  rewrite (position_of_run seat (Js.template_nat (row + 1))).
  - rewrite Digits.to_number_template, Hnum.
    do 5 (destruct row as [|row]; [reflexivity|]). lia.
  - rewrite Hnum. apply Digits.match_digits_seatNumber.
Qed.

Lemma clicked_grid_seat_has_panel_witness :
  SeatLayout.selectedSeatPanel
    (SeatLayout.selectedSeat (SeatLayout.comp
       (SeatLayout.step (SeatLayout.ClickSeat Sample.seat_R3S7) SeatLayout.mount))) =
  SeatLayout.Panel (SeatLayout.seatNumber 2 6) 1 (N.of_nat (2 + 1)).
Proof.
  apply (clicked_grid_seat_has_panel Sample.snapshot 2 6 27 Sample.seat_R3S7
           SeatLayout.mount).
  reflexivity.
Defined.

Lemma template_single_digit (row : nat) :
  row < 9 -> Js.template_nat (row + 1) = String (ascii_of_nat (49 + row)) EmptyString.
Proof.
  intros H. do 9 (destruct row as [|row]; [reflexivity|]). lia.
Qed.

(** X4. The label of a seat box is the seat number without its letters:
    for the seat numbered [R{row+1}S{col+1}] it is the digits of the row
    number followed by those of the column number.  As long as row
    numbers have one digit (at most 9 rows), two cells with the same label
    are the same cell. *)
Theorem seatBoxLabel_of_grid_seat (seat : SeatLayout.Seat) (row col : nat) :
  SeatLayout.seat_number seat = SeatLayout.seatNumber row col ->
  SeatLayout.seatBoxLabel seat =
    (Js.template_nat (row + 1) ++ Js.template_nat (col + 1))%string /\
  forall other row' col',
    SeatLayout.seat_number other = SeatLayout.seatNumber row' col' ->
    row < 9 -> row' < 9 ->
    SeatLayout.seatBoxLabel other = SeatLayout.seatBoxLabel seat ->
    row' = row /\ col' = col.
Proof.
  assert (Hlabel : forall s r c,
            SeatLayout.seat_number s = SeatLayout.seatNumber r c ->
            SeatLayout.seatBoxLabel s =
            (Js.template_nat (r + 1) ++ Js.template_nat (c + 1))%string).
  { intros s r c Hs. unfold SeatLayout.seatBoxLabel. rewrite Hs.
    unfold SeatLayout.seatNumber.
    change (Js.strip_non_digits ("R" ++ ?x)) with (Js.strip_non_digits x).
    simpl. rewrite Digits.strip_app. simpl. 
    now rewrite !Digits.strip_all_digits by apply SeatNumbers.template_nat_all_digits. }
  intros Hnum. split; [now apply Hlabel|].
  intros other row' col' Hother Hr Hr' Heq.
  rewrite (Hlabel _ _ _ Hother), (Hlabel _ _ _ Hnum) in Heq.
  rewrite (template_single_digit row Hr), (template_single_digit row' Hr') in Heq.
  simpl in Heq. injection Heq as Hrow Hcol.
  apply SeatNumbers.template_nat_inj in Hcol.
  apply (f_equal nat_of_ascii) in Hrow.
  rewrite !nat_ascii_embedding in Hrow by lia. lia.
Qed.

Lemma seatBoxLabel_of_grid_seat_witness :
  SeatLayout.seatBoxLabel Sample.seat_R1S10 =
    (Js.template_nat (0 + 1) ++ Js.template_nat (9 + 1))%string.
Proof.
  apply (proj1 (seatBoxLabel_of_grid_seat Sample.seat_R1S10 0 9 eq_refl)).
Defined.

(** With two-digit row numbers the labels collide. *)
Example seatBoxLabel_collision :
  Js.strip_non_digits (SeatLayout.seatNumber 0 10) = "111" /\
  Js.strip_non_digits (SeatLayout.seatNumber 10 0) = "111".
Proof. split; reflexivity. Qed.

(** ** Colours, counters and the number of boxes *)

(** X5. The counters against the colours of the boxes.  The "Available"
    counter is the number of seats [getSeatColor] paints green.  The
    "Occupied" counter is the number of seats painted red plus the number
    of disabled (grey) seats that are flagged occupied, so it exceeds the
    number of red seats whenever the snapshot holds such a seat.  Every
    seat has exactly one of the three colours. *)
Theorem counters_against_colours (seats : list SeatLayout.Seat) :
  let coloured colour :=
    Spec.count (fun s => String.eqb (SeatLayout.getSeatColor s) colour) seats in
  SeatLayout.availableSeats seats = coloured "#4caf50" /\
  SeatLayout.occupiedSeats seats =
    coloured "#f44336" +
    Spec.count (fun s => negb (SeatLayout.is_available s) && SeatLayout.is_occupied s)
               seats /\
  coloured "#4caf50" + coloured "#f44336" + coloured "#9e9e9e" =
    SeatLayout.totalSeats seats.
Proof.
  unfold SeatLayout.availableSeats, SeatLayout.occupiedSeats, SeatLayout.totalSeats.
  rewrite !filter_length_count. cbv zeta.
  induction seats as [|s seats (IH1 & IH2 & IH3)]; [repeat split|].
  cbn [Spec.count List.length]. rewrite IH1, IH2, <- IH3.
  unfold SeatLayout.getSeatColor.
  destruct (SeatLayout.is_available s), (SeatLayout.is_occupied s); simpl;
    repeat split; lia.
Qed.

Example counters_against_colours_sample :
  SeatLayout.occupiedSeats Sample.snapshot = 2 /\
  Spec.count (fun s => String.eqb (SeatLayout.getSeatColor s) "#f44336")
             Sample.snapshot = 1.
Proof. split; reflexivity. Qed.

Module Boxes.

Import SeatLayout.

(** The seat a cell shows, if any. *)
Lemma displayedSeats_flat_map (c : component) (pend : list (nat * request))
    (n : nat) (u : list error) :
  displayedSeats {| comp := c; pending := pend; issued := n; unhandled := u |} =
  flat_map (fun row =>
    flat_map (fun col =>
      match renderCell (seats c) row col with
      | SeatBox _ s => [s]
      | EmptyBox _ => []
      end) (seq 0 10)) (seq 0 5).
Proof.
  unfold displayedSeats, displayedGrid. cbn [comp].
  change (renderSeatGrid (seats c)) with (renderSeatGridOf 5 10 (seats c)).
  rewrite SeatGrid.renderSeatGridOf_map, map_map, flat_map_concat_map.
  reflexivity.
Qed.

Lemma NoDup_flat_map {A B : Type} (f : A -> list B) (l : list A) :
  NoDup l ->
  (forall a, In a l -> NoDup (f a)) ->
  (forall a a' b, In a l -> In a' l -> In b (f a) -> In b (f a') -> a = a') ->
  NoDup (flat_map f l).
Proof.
  induction l as [|a l IH]; intros Hl Hf Hdisj; simpl; [constructor|].
  inversion Hl as [|? ? Hnotin Hl']; subst.
  apply NoDup_app.
  - apply Hf. now left.
  - apply IH; auto.
    + intros a' Ha'. apply Hf. now right.
    + intros a1 a2 b H1 H2. apply Hdisj; now right.
  - intros b Hb Hb'. apply in_flat_map in Hb' as (a' & Ha' & Hb').
    assert (a = a') by (apply (Hdisj a a' b); auto; [now left | now right]).
    subst a'. contradiction.
Qed.

Lemma cell_number (seats : list Seat) (row col : nat) (n : string) :
  In n (map seat_number
          match renderCell seats row col with
          | SeatBox _ s => [s]
          | EmptyBox _ => []
          end) ->
  n = seatNumber row col.
Proof.
  destruct (renderCell seats row col) as [key s|key] eqn:Hcell; simpl; [|tauto].
  intros [<-|[]].
  apply SeatGrid.renderCell_seat in Hcell as (_ & b & a & _ & Hnum & _).
  now symmetry.
Qed.

Lemma displayed_numbers_NoDup (seats : list Seat) :
  NoDup (flat_map (fun row =>
    flat_map (fun col =>
      map seat_number
        match renderCell seats row col with
        | SeatBox _ s => [s]
        | EmptyBox _ => []
        end) (seq 0 10)) (seq 0 5)).
Proof.
  apply NoDup_flat_map.
  - apply seq_NoDup.
  - intros row _. apply NoDup_flat_map.
    + apply seq_NoDup.
    + intros col _. destruct (renderCell seats row col); simpl;
        repeat constructor; simpl; tauto.
    + intros col col' n _ _ Hn Hn'.
      apply cell_number in Hn, Hn'. rewrite Hn in Hn'.
      now apply SeatNumbers.seatNumber_inj in Hn'.
  - intros row row' n _ _ Hn Hn'.
    apply in_flat_map in Hn as (col & _ & Hn).
    apply in_flat_map in Hn' as (col' & _ & Hn').
    apply cell_number in Hn, Hn'. rewrite Hn in Hn'.
    now apply SeatNumbers.seatNumber_inj in Hn'.
Qed.

Lemma map_flat_map {A B C : Type} (g : B -> C) (f : A -> list B) (l : list A) :
  map g (flat_map f l) = flat_map (fun a => map g (f a)) l.
Proof.
  induction l as [|a l IH]; simpl; [reflexivity|].
  now rewrite map_app, IH.
Qed.

Lemma flat_map_bound {A B : Type} (f : A -> list B) (l : list A) (k : nat) :
  (forall a, List.length (f a) <= k) ->
  List.length (flat_map f l) <= k * List.length l.
Proof.
  intros Hf. induction l as [|a l IH]; simpl; [lia|].
  rewrite length_app. specialize (Hf a). lia.
Qed.

End Boxes.

(** X6. The seat boxes of the grid show seats of the snapshot, no two of
    them with the same seat number; so there are at most as many boxes as
    there are seats in the snapshot, and at most 50, while "Total Seats"
    counts every seat of the snapshot, shown or not. *)
Theorem displayed_seats_are_distinct (p : SeatLayout.page) :
  let shown := SeatLayout.displayedSeats p in
  (forall s, In s shown -> In s (SeatLayout.seats (SeatLayout.comp p))) /\
  NoDup (map SeatLayout.seat_number shown) /\
  List.length shown <= SeatLayout.totalSeats (SeatLayout.seats (SeatLayout.comp p)) /\
  List.length shown <= 50.
Proof.
  destruct p as [c pend n u]. cbv zeta.
  rewrite Boxes.displayedSeats_flat_map. simpl SeatLayout.comp.
  assert (Hin : forall s,
    In s (flat_map (fun row =>
      flat_map (fun col =>
        match SeatLayout.renderCell (SeatLayout.seats c) row col with
        | SeatLayout.SeatBox _ s => [s]
        | SeatLayout.EmptyBox _ => []
        end) (seq 0 10)) (seq 0 5)) -> In s (SeatLayout.seats c)).
  { intros s Hs.
    apply in_flat_map in Hs as (row & _ & Hs).
    apply in_flat_map in Hs as (col & _ & Hs).
    destruct (SeatLayout.renderCell (SeatLayout.seats c) row col) as [key s'|key] eqn:Hcell;
      [|destruct Hs].
    destruct Hs as [<-|[]].
    apply SeatGrid.renderCell_seat in Hcell as (_ & b & a & -> & _).
    apply in_elt. }
  assert (Hnodup : NoDup (map SeatLayout.seat_number
    (flat_map (fun row =>
      flat_map (fun col =>
        match SeatLayout.renderCell (SeatLayout.seats c) row col with
        | SeatLayout.SeatBox _ s => [s]
        | SeatLayout.EmptyBox _ => []
        end) (seq 0 10)) (seq 0 5)))).
  { rewrite Boxes.map_flat_map.
    erewrite flat_map_ext; [apply (Boxes.displayed_numbers_NoDup (SeatLayout.seats c))|].
    intros row. apply Boxes.map_flat_map. }
  repeat split; auto.
  - unfold SeatLayout.totalSeats.
    rewrite <- (length_map SeatLayout.seat_number),
            <- (length_map SeatLayout.seat_number (SeatLayout.seats c)).
    apply NoDup_incl_length; [assumption|].
    intros n' Hn'. apply in_map_iff in Hn' as (s & <- & Hs).
    apply in_map. auto.
  - change 50 with (10 * List.length (seq 0 5)).
    apply Boxes.flat_map_bound. intros row.
    change 10 with (1 * List.length (seq 0 10)).
    apply Boxes.flat_map_bound. intros col.
    destruct (SeatLayout.renderCell (SeatLayout.seats c) row col); simpl; lia.
Qed.

(** X6 on the sample snapshot once it is displayed. *)
Lemma displayed_seats_are_distinct_witness :
  In Sample.seat_R3S7 (SeatLayout.seats (SeatLayout.comp Sample.hall_1_loaded)).
Proof.
  apply (proj1 (displayed_seats_are_distinct Sample.hall_1_loaded)).
  right. left. reflexivity.
Defined.

Example displayed_seats_sample :
  List.length (SeatLayout.displayedSeats Sample.hall_1_loaded) = 2 /\
  SeatLayout.totalSeats (SeatLayout.seats (SeatLayout.comp Sample.hall_1_loaded)) = 5.
Proof. split; reflexivity. Qed.

(** ** The order of the snapshot *)

Module Order.

Import SeatLayout.

Lemma find_unique_number (l : list Seat) (x : Seat) (n : string) :
  NoDup (map seat_number l) -> In x l -> seat_number x = n ->
  find (fun s => String.eqb (seat_number s) n) l = Some x.
Proof.
  induction l as [|a l IH]; intros Hnd Hin Hn; [destruct Hin|].
  inversion Hnd as [|? ? Hnotin Hnd']; subst. simpl.
  destruct Hin as [->|Hin].
  - now rewrite String.eqb_refl.
  - destruct (String.eqb_spec (seat_number a) (seat_number x)) as [Heq|_].
    + exfalso. apply Hnotin. rewrite Heq. now apply in_map.
    + now apply IH.
Qed.

Lemma find_permutation (l l' : list Seat) (n : string) :
  NoDup (map seat_number l) -> Permutation l l' ->
  find (fun s => String.eqb (seat_number s) n) l =
  find (fun s => String.eqb (seat_number s) n) l'.
Proof.
  intros Hnd Hperm.
  assert (Hnd' : NoDup (map seat_number l')).
  { eapply Permutation_NoDup; [|exact Hnd]. now apply Permutation_map. }
  destruct (find _ l) as [x|] eqn:Hf.
  - apply find_some in Hf as [Hin Hx]. apply String.eqb_eq in Hx.
    symmetry. apply find_unique_number; auto.
    eapply Permutation_in; eauto.
  - destruct (find _ l') as [y|] eqn:Hf'; [|reflexivity].
    apply find_some in Hf' as [Hin Hy].
    apply Permutation_sym in Hperm.
    apply (Permutation_in _ Hperm) in Hin.
    apply (find_none _ _ Hf) in Hin. simpl in Hin. congruence.
Qed.

Lemma count_permutation {A : Type} (flag : A -> bool) (l l' : list A) :
  Permutation l l' -> Spec.count flag l = Spec.count flag l'.
Proof.
  induction 1; simpl; try lia.
Qed.

End Order.

(** X7. The order in which the backend lists the seats does not matter
    to the three figures, and it does not matter to the grid either as
    long as no two seats of the snapshot have the same seat number. *)
Theorem snapshot_order_is_irrelevant (seats seats' : list SeatLayout.Seat) :
  Permutation seats seats' ->
  SeatLayout.totalSeats seats = SeatLayout.totalSeats seats' /\
  SeatLayout.occupiedSeats seats = SeatLayout.occupiedSeats seats' /\
  SeatLayout.availableSeats seats = SeatLayout.availableSeats seats' /\
  (NoDup (map SeatLayout.seat_number seats) ->
   SeatLayout.renderSeatGrid seats = SeatLayout.renderSeatGrid seats').
Proof.
  intros Hperm.
  unfold SeatLayout.totalSeats, SeatLayout.occupiedSeats, SeatLayout.availableSeats.
  rewrite !filter_length_count.
  repeat split.
  - now apply Permutation_length.
  - now apply Order.count_permutation.
  - now apply Order.count_permutation.
  - intros Hnd.
    change (SeatLayout.renderSeatGridOf 5 10 seats = SeatLayout.renderSeatGridOf 5 10 seats').
    rewrite !SeatGrid.renderSeatGridOf_map.
    apply map_ext. intros row. f_equal.
    apply map_ext. intros col. unfold SeatLayout.renderCell.
    now rewrite (Order.find_permutation seats seats').
Qed.

Lemma snapshot_order_is_irrelevant_witness :
  SeatLayout.renderSeatGrid [Sample.seat_R3S7; Sample.seat_R1S10] =
  SeatLayout.renderSeatGrid [Sample.seat_R1S10; Sample.seat_R3S7].
Proof.
  apply (snapshot_order_is_irrelevant
           [Sample.seat_R3S7; Sample.seat_R1S10] [Sample.seat_R1S10; Sample.seat_R3S7]).
  - apply perm_swap.
  - repeat constructor; simpl; intuition discriminate.
Defined.

(** With a seat number listed twice, the first one listed is shown. *)
Example duplicate_number_depends_on_order :
  SeatLayout.cell_at
    (SeatLayout.renderSeatGrid [Sample.seat_R3S7; Sample.seat_R3S7_again]) 2 6 =
    Some (SeatLayout.SeatBox 27 Sample.seat_R3S7) /\
  SeatLayout.cell_at
    (SeatLayout.renderSeatGrid [Sample.seat_R3S7_again; Sample.seat_R3S7]) 2 6 =
    Some (SeatLayout.SeatBox 77 Sample.seat_R3S7_again).
Proof. split; reflexivity. Qed.

(** ** The dashboard's requests *)

Module Requests.

Lemma usage_in_flight_app (l l' : list (nat * Dashboard.request)) :
  Dashboard.usage_in_flight (l ++ l') =
  Dashboard.usage_in_flight l + Dashboard.usage_in_flight l'.
Proof.
  induction l as [|[i [| |days]] l IH]; simpl; lia.
Qed.

Lemma usage_in_flight_take (id : nat) (l rest : list (nat * Dashboard.request))
    (r : Dashboard.request) :
  Async.take id l = Some (r, rest) ->
  Dashboard.usage_in_flight l =
  Dashboard.usage_in_flight rest +
  match r with Dashboard.GetUsageAnalytics _ => 1 | _ => 0 end.
Proof.
  revert r rest. induction l as [|[i r0] l IH]; intros r rest; simpl; [discriminate|].
  destruct (i =? id).
  - intros [= <- <-]. destruct r0; lia.
  - destruct (Async.take id l) as [[r' rest']|]; [|discriminate].
    intros [= <- <-]. specialize (IH r' rest' eq_refl).
    destruct r0; simpl; lia.
Qed.

Section Dashboard.
Variable format_MMM_dd : string -> option string.

Local Abbreviation step := (Dashboard.step format_MMM_dd).
Local Abbreviation run := (Dashboard.run format_MMM_dd).

Lemma loading_tracks_usage_step (ev : Dashboard.event) (p : Dashboard.page) :
  Dashboard.loading_tracks_usage p -> Dashboard.loading_tracks_usage (step ev p).
Proof.
  unfold Dashboard.loading_tracks_usage. intros Hinv.
  destruct ev as [| |id r|id r|id r]; simpl.
  - destruct (Dashboard.interval p); [|assumption].
    simpl. rewrite <- app_assoc, usage_in_flight_app. simpl. lia.
  - assumption.
  - destruct (Async.take id (Dashboard.pending p)) as [[[| |days] rest]|] eqn:Ht;
      try assumption.
    apply usage_in_flight_take in Ht. destruct r; simpl; lia.
  - destruct (Async.take id (Dashboard.pending p)) as [[[| |days] rest]|] eqn:Ht;
      try assumption.
    apply usage_in_flight_take in Ht. destruct r; simpl; lia.
  - destruct (Async.take id (Dashboard.pending p)) as [[[| |days] rest]|] eqn:Ht;
      try assumption.
    apply usage_in_flight_take in Ht.
    destruct (fetchUsageData_resume_returns format_MMM_dd r (Dashboard.comp p))
      as (c' & Hc' & Hl & _).
    unfold Dashboard.resume. rewrite Hc'. simpl. rewrite Hl.
    destruct (Dashboard.loading (Dashboard.comp p)); lia.
Qed.

Lemma loading_tracks_usage_run (evs : list Dashboard.event) (p : Dashboard.page) :
  Dashboard.loading_tracks_usage p -> Dashboard.loading_tracks_usage (run evs p).
Proof.
  revert p. induction evs as [|ev evs IH]; intros p Hinv; simpl; [assumption|].
  now apply IH, loading_tracks_usage_step.
Qed.

Lemma no_usage_step (ev : Dashboard.event) (p : Dashboard.page) :
  Dashboard.usage_in_flight (Dashboard.pending p) = 0 ->
  Dashboard.usage_in_flight (Dashboard.pending (step ev p)) = 0 /\
  Dashboard.usageData (Dashboard.comp (step ev p)) =
    Dashboard.usageData (Dashboard.comp p) /\
  Dashboard.loading (Dashboard.comp (step ev p)) =
    Dashboard.loading (Dashboard.comp p).
Proof.
  intros Hnone.
  destruct ev as [| |id r|id r|id r]; simpl.
  - destruct (Dashboard.interval p); [|auto].
    simpl. rewrite <- app_assoc, usage_in_flight_app. simpl. repeat split; lia.
  - auto.
  - destruct (Async.take id (Dashboard.pending p)) as [[[| |days] rest]|] eqn:Ht; auto.
    apply usage_in_flight_take in Ht. destruct r; simpl; repeat split; lia.
  - destruct (Async.take id (Dashboard.pending p)) as [[[| |days] rest]|] eqn:Ht; auto.
    apply usage_in_flight_take in Ht. destruct r; simpl; repeat split; lia.
  - destruct (Async.take id (Dashboard.pending p)) as [[[| |days] rest]|] eqn:Ht; auto.
    apply usage_in_flight_take in Ht. lia.
Qed.

Lemma settle_frame (ev : Dashboard.event) (p : Dashboard.page) :
  ev <> Dashboard.Tick -> ev <> Dashboard.Unmount ->
  Dashboard.interval (step ev p) = Dashboard.interval p /\
  Dashboard.issued (step ev p) = Dashboard.issued p.
Proof.
  intros Ht Hu. destruct ev as [| |id r|id r|id r]; try contradiction; simpl;
    destruct (Async.take id (Dashboard.pending p)) as [[[| |days] rest]|]; auto;
    try (destruct r; simpl; auto; fail);
    destruct (fetchUsageData_resume_returns format_MMM_dd r (Dashboard.comp p))
      as (c' & Hc' & _);
    unfold Dashboard.resume; rewrite Hc'; simpl; auto.
Qed.

Lemma issued_run (evs : list Dashboard.event) (p : Dashboard.page) :
  Dashboard.issued (run evs p) =
  Dashboard.issued p +
  (if Dashboard.interval p then 2 * Dashboard.ticks_while_mounted evs else 0).
Proof.
  revert p. induction evs as [|ev evs IH]; intros p; simpl.
  - destruct (Dashboard.interval p); lia.
  - rewrite IH.
    destruct ev as [| |id r|id r|id r].
    + simpl. destruct (Dashboard.interval p) eqn:Hi; simpl; rewrite ?Hi; lia.
    + simpl. destruct (Dashboard.interval p); lia.
    + destruct (settle_frame (Dashboard.OverviewSettled id r) p) as [-> ->];
        try discriminate. reflexivity.
    + destruct (settle_frame (Dashboard.ActiveSessionsSettled id r) p) as [-> ->];
        try discriminate. reflexivity.
    + destruct (settle_frame (Dashboard.UsageSettled id r) p) as [-> ->];
        try discriminate. reflexivity.
Qed.

End Dashboard.

End Requests.

(** X8. On a dashboard mounted and then driven by any events, [loading]
    is set exactly while the usage request is in flight: it is set at the
    first render, the answers for the overview and for the active sessions
    never clear it, and the answer for the usage analytics, fulfilled or
    rejected, clears it.  There is never more than one usage request in
    flight. *)
Theorem loading_follows_usage_request
    (format_MMM_dd : string -> option string) (evs : list Dashboard.event) :
  let p := Dashboard.run format_MMM_dd evs Dashboard.mount in
  Dashboard.usage_in_flight (Dashboard.pending p) =
    (if Dashboard.loading (Dashboard.comp p) then 1 else 0) /\
  Dashboard.loading (Dashboard.comp Dashboard.mount) = true /\
  (forall r,
     Dashboard.loading (Dashboard.comp
       (Dashboard.step format_MMM_dd (Dashboard.UsageSettled 2 r) Dashboard.mount))
     = false).
Proof.
  split; [|split].
  - apply (Requests.loading_tracks_usage_run format_MMM_dd evs Dashboard.mount).
    reflexivity.
  - reflexivity.
  - intros r.
    destruct (fetchUsageData_resume_returns format_MMM_dd r
                (Dashboard.comp Dashboard.mount)) as (c' & Hc' & Hl & _).
    simpl. unfold Dashboard.resume. rewrite Hc'. exact Hl.
Qed.

(** X9. Once no usage request is in flight, no event changes the chart
    data or [loading] any more, and no usage request is ever sent again:
    the timer refreshes the overview and the sessions only. *)
Theorem usage_chart_is_fetched_once
    (format_MMM_dd : string -> option string) (p : Dashboard.page)
    (evs : list Dashboard.event) :
  Dashboard.usage_in_flight (Dashboard.pending p) = 0 ->
  let q := Dashboard.run format_MMM_dd evs p in
  Dashboard.usageData (Dashboard.comp q) = Dashboard.usageData (Dashboard.comp p) /\
  Dashboard.loading (Dashboard.comp q) = Dashboard.loading (Dashboard.comp p) /\
  Dashboard.usage_in_flight (Dashboard.pending q) = 0.
Proof.
  revert p. induction evs as [|ev evs IH]; intros p Hnone; simpl; [auto|].
  destruct (Requests.no_usage_step format_MMM_dd ev p Hnone) as (H0 & Hd & Hl).
  destruct (IH _ H0) as (Hd' & Hl' & H0').
  cbv zeta in *. rewrite <- Hd, <- Hl. auto.
Qed.

Lemma usage_chart_is_fetched_once_witness :
  let p := Dashboard.step Sample.format_MMM_dd
             (Dashboard.UsageSettled 2 (Async.Fulfilled Sample.usage)) Dashboard.mount in
  let q := Dashboard.run Sample.format_MMM_dd
             [Dashboard.Tick; Dashboard.UsageSettled 2 (Async.Rejected "late");
              Dashboard.Tick] p in
  Dashboard.usageData (Dashboard.comp q) = Dashboard.usageData (Dashboard.comp p) /\
  Dashboard.loading (Dashboard.comp q) = Dashboard.loading (Dashboard.comp p) /\
  Dashboard.usage_in_flight (Dashboard.pending q) = 0.
Proof.
  apply (usage_chart_is_fetched_once Sample.format_MMM_dd
           (Dashboard.step Sample.format_MMM_dd
              (Dashboard.UsageSettled 2 (Async.Fulfilled Sample.usage)) Dashboard.mount)).
  reflexivity.
Defined.

(** X10. The dashboard sends three requests when it is mounted and two
    more at each tick of its interval until it is torn down: after any
    events, the number of requests sent is 3 plus twice the number of ticks
    that came before the first teardown. *)
Theorem dashboard_requests_sent
    (format_MMM_dd : string -> option string) (evs : list Dashboard.event) :
  Dashboard.issued (Dashboard.run format_MMM_dd evs Dashboard.mount) =
  3 + 2 * Dashboard.ticks_while_mounted evs.
Proof.
  rewrite Requests.issued_run. reflexivity.
Qed.

(** X13. The overview shown is the one of the answer that arrived last,
    whichever request was sent first: with two overview requests in
    flight, once both are fulfilled the overview is the payload of the
    second answer to arrive. *)
Theorem overview_last_arrival_wins
    (format_MMM_dd : string -> option string) (p : Dashboard.page) (i j : nat)
    (rest rest' : list (nat * Dashboard.request))
    (first second : Dashboard.OverviewSnapshot) :
  Async.take i (Dashboard.pending p) = Some (Dashboard.GetOverview, rest) ->
  Async.take j rest = Some (Dashboard.GetOverview, rest') ->
  let q := Dashboard.run format_MMM_dd
             [Dashboard.OverviewSettled i (Async.Fulfilled first);
              Dashboard.OverviewSettled j (Async.Fulfilled second)] p in
  Dashboard.overview (Dashboard.comp q) = second /\
  Dashboard.pending q = rest'.
Proof.
  intros Hi Hj. simpl. rewrite Hi. simpl. rewrite Hj. auto.
Qed.

(** X13 when the answer to the request of the first render arrives after
    the answer to the request of the first tick. *)
Lemma overview_last_arrival_wins_witness :
  let p := Dashboard.step Sample.format_MMM_dd Dashboard.Tick Dashboard.mount in
  let q := Dashboard.run Sample.format_MMM_dd
             [Dashboard.OverviewSettled 3 (Async.Fulfilled Sample.overview_40);
              Dashboard.OverviewSettled 0
                (Async.Fulfilled (Dashboard.overview Dashboard.initial))] p in
  Dashboard.overview (Dashboard.comp q) = Dashboard.overview Dashboard.initial /\
  Dashboard.pending q =
    [(1, Dashboard.GetActiveSessions); (2, Dashboard.GetUsageAnalytics 7);
     (4, Dashboard.GetActiveSessions)].
Proof.
  apply (overview_last_arrival_wins Sample.format_MMM_dd
           (Dashboard.step Sample.format_MMM_dd Dashboard.Tick Dashboard.mount) 3 0
           [(0, Dashboard.GetOverview); (1, Dashboard.GetActiveSessions);
            (2, Dashboard.GetUsageAnalytics 7); (4, Dashboard.GetActiveSessions)]).
  - reflexivity.
  - reflexivity.
Defined.

(** X16. The duration shown advances by exactly one for every 60000
    milliseconds that pass, from whatever instant: [k] minutes later it is
    [k] more (or less, for a negative [k]). *)
Theorem duration_advances_by_minutes (session : Dashboard.Session) (now k : Z) :
  Dashboard.duration (now + 60000 * k) session =
  (Dashboard.duration now session + k)%Z.
Proof.
  unfold Dashboard.duration, Js.floor_div. cbv zeta.
  change (1000 * 60)%Z with 60000%Z.
  replace (now + 60000 * k - Dashboard.check_in_time session)%Z
    with (now - Dashboard.check_in_time session + k * 60000)%Z by lia.
  now rewrite Z.div_add.
Qed.

(** ** The poller's requests *)

Module PollerRequests.

Section Poller.
Context {V D : Type}.
Variable endpoint : string.
Variable callback : D -> V -> V.

Lemma poller_issued_run (evs : list (@ApiService.event D)) (p : @ApiService.poller V) :
  ApiService.issued (ApiService.run endpoint callback evs p) =
  ApiService.issued p +
  (if ApiService.interval p then ApiService.ticks_before_cleanup evs else 0).
Proof.
  revert p. induction evs as [|ev evs IH]; intros p; simpl.
  - destruct (ApiService.interval p); lia.
  - rewrite IH. destruct ev as [| |id r]; simpl.
    + destruct (ApiService.interval p) eqn:Hi; simpl; rewrite ?Hi; lia.
    + destruct (ApiService.interval p); lia.
    + destruct (Async.take id (ApiService.pending p)) as [[req rest]|]; [|reflexivity].
      destruct (Polling.resume_frame callback r rest p) as (-> & -> & _).
      reflexivity.
Qed.

End Poller.

End PollerRequests.

(** X11. [startPolling] sends its first request at once, before any tick
    and without calling the callback, and then exactly one request per
    tick until the function it returned is called: after any events the
    number of requests sent is 1 plus the number of ticks that came before
    the first cleanup. *)
Theorem startPolling_requests_sent
    (V D : Type) (endpoint : string) (callback : D -> V -> V)
    (w : @ApiService.world V) (evs : list (@ApiService.event D)) :
  ApiService.pending (ApiService.startPolling endpoint w) = [(0, endpoint)] /\
  ApiService.env (ApiService.startPolling endpoint w) = w /\
  ApiService.issued (ApiService.run endpoint callback evs
                       (ApiService.startPolling endpoint w)) =
    1 + ApiService.ticks_before_cleanup evs.
Proof.
  repeat split. rewrite PollerRequests.poller_issued_run. reflexivity.
Qed.

(** ** Selecting halls and seats *)

Module Selection.

Import SeatLayout.

Lemma select_other_hall (p : page) (B : nat) :
  well_formed p -> B <> selectedHallId (comp p) -> B <> 0 ->
  step (SelectHall B) p = fetchSeats (with_comp (setSelectedHallId B) p) /\
  Async.take (issued p) (pending (step (SelectHall B) p)) =
    Some (GetHallSeats B, pending p).
Proof.
  intros [Hid _] HB H0.
  assert (Hq : step (SelectHall B) p = fetchSeats (with_comp (setSelectedHallId B) p)).
  { simpl. unfold rerender, effect_selectedHallId. simpl.
    destruct (Nat.eqb_spec B (selectedHallId (comp p))); [contradiction|].
    unfold Js.truthy. destruct (Nat.eqb_spec B 0); [contradiction|]. reflexivity. }
  split; [assumption|].
  rewrite Hq. simpl. apply Halls.take_last.
  intros i x Hin. specialize (Hid _ _ Hin). lia.
Qed.

Lemma fetchHalls_resume_frame (closure : nat) (r : Async.settled error (list Hall))
    (c : component) :
  exists c',
    fetchHalls_resume closure r c = (inl tt, c') /\
    selectedSeat c' = selectedSeat c /\ seats c' = seats c.
Proof.
  unfold fetchHalls_resume, Async.try_catch, Async.bind, Async.await, Async.ret,
    Async.modify, Async.throw.
  destruct r as [[|first data]|e]; simpl; eauto.
  destruct (Js.truthy closure); simpl; eauto.
Qed.

Lemma keeps_selectedSeat (ev : event) (p : page) :
  (forall s, ev <> ClickSeat s) ->
  selectedSeat (comp (step ev p)) = selectedSeat (comp p).
Proof.
  intros Hev. destruct ev as [value| |seat|id r|id r]; simpl.
  - unfold rerender, effect_selectedHallId. simpl.
    destruct (value =? _); [reflexivity|].
    destruct (Js.truthy value); reflexivity.
  - reflexivity.
  - exfalso. now apply (Hev seat).
  - destruct (Async.take id (pending p)) as [[[closure|hallId] rest]|]; try reflexivity.
    destruct (fetchHalls_resume_frame closure r (comp p)) as (c' & Hc' & Hsel & _).
    unfold rerender, effect_selectedHallId, resume. rewrite Hc'. simpl.
    destruct (_ =? _); simpl; [assumption|].
    destruct (Js.truthy _); simpl; assumption.
  - destruct (Async.take id (pending p)) as [[[closure|hallId] rest]|]; try reflexivity.
    destruct r; reflexivity.
Qed.

End Selection.

(** X12. Answers are applied in the order they arrive, whatever hall is
    selected by then.  In any state the view can reach, with a seats
    request for hall [A] in flight: if hall [B] is selected, the answer to
    the request this selection sends for [B] arrives and then the answer
    for [A] arrives, the grid ends up showing the seats of hall [A] while
    hall [B] is the selection.  The requests then in flight are those that
    were in flight before the selection, less the one for [A]; the request
    the selection sent for [B] is not among them, so its answer will not
    come again to put this right. *)
Theorem late_seats_answer_overwrites
    (evs : list SeatLayout.event) (iA A B : nat)
    (restA : list (nat * SeatLayout.request))
    (seatsA seatsB : list SeatLayout.Seat) :
  let p := SeatLayout.run evs SeatLayout.mount in
  Async.take iA (SeatLayout.pending p) = Some (SeatLayout.GetHallSeats A, restA) ->
  B <> SeatLayout.selectedHallId (SeatLayout.comp p) -> B <> 0 ->
  let q := SeatLayout.run
    [ SeatLayout.SelectHall B;
      SeatLayout.SeatsSettled (SeatLayout.issued p) (Async.Fulfilled seatsB);
      SeatLayout.SeatsSettled iA (Async.Fulfilled seatsA) ] p in
  SeatLayout.selectedHallId (SeatLayout.comp q) = B /\
  SeatLayout.seats (SeatLayout.comp q) = seatsA /\
  SeatLayout.displayedGrid q = SeatLayout.renderSeatGrid seatsA /\
  SeatLayout.pending q = restA /\
  (forall x, In x (SeatLayout.pending q) -> In x (SeatLayout.pending p)) /\
  (forall r, ~ In (SeatLayout.issued p, r) (SeatLayout.pending q)).
Proof.
  intros p HA HB H0.
  assert (Hwf : SeatLayout.well_formed p)
    by apply Halls.well_formed_run, Halls.well_formed_mount.
  destruct (Selection.select_other_hall p B Hwf HB H0) as [Hq Htake].
  cbv zeta. unfold SeatLayout.run. cbn [fold_left].
  set (q1 := SeatLayout.step (SeatLayout.SelectHall B) p) in *.
  assert (H2 : SeatLayout.step
                 (SeatLayout.SeatsSettled (SeatLayout.issued p) (Async.Fulfilled seatsB)) q1 =
               SeatLayout.resume (SeatLayout.fetchSeats_resume (Async.Fulfilled seatsB))
                 (SeatLayout.pending p) q1).
  { simpl. now rewrite Htake. }
  rewrite H2.
  unfold SeatLayout.displayedGrid.
  simpl. rewrite HA. simpl. rewrite Hq.
  destruct (Halls.take_spec _ _ _ _ HA) as [_ Hsub].
  repeat split; auto.
  intros r Hin. apply Hsub in Hin.
  destruct Hwf as [Hid _]. specialize (Hid _ _ Hin). lia.
Qed.

(** X12 right after the first render, hall 2 being selected while the
    seats of hall 1 are still awaited. *)
Lemma late_seats_answer_overwrites_witness :
  let q := SeatLayout.run
    [ SeatLayout.SelectHall 2;
      SeatLayout.SeatsSettled 2 (Async.Fulfilled [Sample.seat_R1S10]);
      SeatLayout.SeatsSettled 1 (Async.Fulfilled [Sample.seat_R3S7]) ]
    SeatLayout.mount in
  SeatLayout.selectedHallId (SeatLayout.comp q) = 2 /\
  SeatLayout.seats (SeatLayout.comp q) = [Sample.seat_R3S7] /\
  SeatLayout.displayedGrid q = SeatLayout.renderSeatGrid [Sample.seat_R3S7] /\
  SeatLayout.pending q = [(0, SeatLayout.GetHalls 1)].
Proof.
  destruct (late_seats_answer_overwrites [] 1 1 2 [(0, SeatLayout.GetHalls 1)]
              [Sample.seat_R3S7] [Sample.seat_R1S10])
    as (H1 & H2 & H3 & H4 & _).
  - reflexivity.
  - vm_compute. lia.
  - lia.
  - repeat split; assumption.
Defined.

(** An older request for the hall selected can still be in flight. *)
Example older_request_still_in_flight :
  let p := SeatLayout.run [SeatLayout.SelectHall 2; SeatLayout.SelectHall 3]
             SeatLayout.mount in
  let q := SeatLayout.run
    [ SeatLayout.SelectHall 2;
      SeatLayout.SeatsSettled 4 (Async.Fulfilled [Sample.seat_R1S10]);
      SeatLayout.SeatsSettled 3 (Async.Fulfilled [Sample.seat_R3S7]) ] p in
  SeatLayout.selectedHallId (SeatLayout.comp q) = 2 /\
  SeatLayout.seats (SeatLayout.comp q) = [Sample.seat_R3S7] /\
  In (2, SeatLayout.GetHallSeats 2) (SeatLayout.pending q).
Proof. repeat split. right. right. left. reflexivity. Qed.

(** X14. The selected seat is the record that was clicked, kept by
    value: a click makes its seat the selection, replacing the previous
    one, and nothing else ever changes it, neither a refresh, nor a change
    of hall, nor an answer, even one bringing a snapshot in which that seat
    differs or is absent. *)
Theorem selected_seat_only_changes_on_click
    (p : SeatLayout.page) (evs : list SeatLayout.event) (clicked : SeatLayout.Seat) :
  Forall (fun ev => forall s, ev <> SeatLayout.ClickSeat s) evs ->
  SeatLayout.selectedSeat (SeatLayout.comp (SeatLayout.run evs p)) =
    SeatLayout.selectedSeat (SeatLayout.comp p) /\
  SeatLayout.selectedSeat (SeatLayout.comp
    (SeatLayout.run evs (SeatLayout.step (SeatLayout.ClickSeat clicked) p))) =
    Some clicked.
Proof.
  intros Hevs.
  assert (Hrun : forall q,
            SeatLayout.selectedSeat (SeatLayout.comp (SeatLayout.run evs q)) =
            SeatLayout.selectedSeat (SeatLayout.comp q)).
  { induction Hevs as [|ev evs Hev _ IH]; intros q; simpl; [reflexivity|].
    rewrite IH. now apply Selection.keeps_selectedSeat. }
  split; [apply Hrun|]. now rewrite Hrun.
Qed.

Lemma selected_seat_only_changes_on_click_witness :
  SeatLayout.selectedSeat (SeatLayout.comp
    (SeatLayout.run
       [SeatLayout.SeatsSettled 1 (Async.Fulfilled []); SeatLayout.SelectHall 2;
        SeatLayout.Refresh]
       (SeatLayout.step (SeatLayout.ClickSeat Sample.seat_R3S7) SeatLayout.mount))) =
  Some Sample.seat_R3S7.
Proof.
  apply (proj2 (selected_seat_only_changes_on_click SeatLayout.mount
           [SeatLayout.SeatsSettled 1 (Async.Fulfilled []); SeatLayout.SelectHall 2;
            SeatLayout.Refresh] Sample.seat_R3S7
           ltac:(repeat constructor; intros s; discriminate))).
Defined.

(** X15. Choosing a value in the hall selector always makes it the
    selection and never touches the snapshot; it sends a seats request,
    for the value chosen, exactly when the value differs from the previous
    selection and is not 0.  The refresh button sends a seats request for
    the current selection unconditionally, 0 included. *)
Theorem seats_requests_sent (p : SeatLayout.page) (value : nat) :
  let q := SeatLayout.step (SeatLayout.SelectHall value) p in
  let r := SeatLayout.step SeatLayout.Refresh p in
  SeatLayout.selectedHallId (SeatLayout.comp q) = value /\
  SeatLayout.seats (SeatLayout.comp q) = SeatLayout.seats (SeatLayout.comp p) /\
  SeatLayout.pending q =
    (if (value =? SeatLayout.selectedHallId (SeatLayout.comp p)) || (value =? 0)
     then SeatLayout.pending p
     else SeatLayout.pending p ++ [(SeatLayout.issued p, SeatLayout.GetHallSeats value)]) /\
  SeatLayout.pending r =
    SeatLayout.pending p ++
    [(SeatLayout.issued p,
      SeatLayout.GetHallSeats (SeatLayout.selectedHallId (SeatLayout.comp p)))] /\
  SeatLayout.seats (SeatLayout.comp r) = SeatLayout.seats (SeatLayout.comp p) /\
  SeatLayout.selectedHallId (SeatLayout.comp r) =
    SeatLayout.selectedHallId (SeatLayout.comp p).
Proof.
  cbv zeta. simpl. unfold SeatLayout.rerender, SeatLayout.effect_selectedHallId.
  simpl. unfold Js.truthy.
  destruct (value =? SeatLayout.selectedHallId (SeatLayout.comp p));
    destruct (value =? 0); simpl; repeat split.
Qed.

(** ** Request paths *)

Module Paths.

Lemma getHallSeats_path_inj (h h' : nat) :
  ApiService.getHallSeats_path h = ApiService.getHallSeats_path h' -> h = h'.
Proof.
  unfold ApiService.getHallSeats_path. simpl. intros [= H].
  apply (SeatNumbers.split_at_letter "/") in H as [H _];
    try reflexivity; try apply SeatNumbers.template_nat_all_digits.
  now apply SeatNumbers.template_nat_inj.
Qed.

Lemma getUsageAnalytics_path_inj (d d' : nat) :
  ApiService.getUsageAnalytics_path d = ApiService.getUsageAnalytics_path d' -> d = d'.
Proof.
  unfold ApiService.getUsageAnalytics_path. simpl. intros [= H].
  now apply SeatNumbers.template_nat_inj.
Qed.

Lemma getHallSeats_path_not_halls (h : nat) :
  ApiService.getHallSeats_path h <> ApiService.getHalls_path.
Proof.
  unfold ApiService.getHallSeats_path, ApiService.getHalls_path. simpl.
  intros [= H].
Qed.

End Paths.

(** X17. Requests that differ go to paths that differ: the seats of two
    different halls are never asked for at the same path, a seats path is
    never the path of the list of halls, the usage path determines the
    number of days, and the three requests of the dashboard have three
    different paths. *)
Theorem request_paths_are_distinct :
  (forall h h',
     ApiService.getHallSeats_path h = ApiService.getHallSeats_path h' -> h = h') /\
  (forall r r' : SeatLayout.request,
     ApiService.seatLayout_path r = ApiService.seatLayout_path r' ->
     match r, r' with
     | SeatLayout.GetHalls _, SeatLayout.GetHalls _ => True
     | SeatLayout.GetHallSeats h, SeatLayout.GetHallSeats h' => h = h'
     | _, _ => False
     end) /\
  (forall r r' : Dashboard.request,
     ApiService.dashboard_path r = ApiService.dashboard_path r' -> r = r').
Proof.
  split; [exact Paths.getHallSeats_path_inj|]. split.
  - intros [c|h] [c'|h']; simpl; intros H; auto.
    + symmetry in H. now apply Paths.getHallSeats_path_not_halls in H.
    + now apply Paths.getHallSeats_path_not_halls in H.
    + now apply Paths.getHallSeats_path_inj.
  - intros [| |d] [| |d']; simpl; intros H; try reflexivity; try discriminate H.
    apply Paths.getUsageAnalytics_path_inj in H. now subst.
Qed.

Lemma request_paths_are_distinct_witness :
  match SeatLayout.GetHallSeats 2, SeatLayout.GetHallSeats 2 with
  | SeatLayout.GetHalls _, SeatLayout.GetHalls _ => True
  | SeatLayout.GetHallSeats h, SeatLayout.GetHallSeats h' => h = h'
  | _, _ => False
  end.
Proof.
  apply (proj1 (proj2 request_paths_are_distinct)
           (SeatLayout.GetHallSeats 2) (SeatLayout.GetHallSeats 2)).
  reflexivity.
Defined.

Example request_paths_sample :
  ApiService.seatLayout_path (SeatLayout.GetHallSeats 12) = "/api/halls/12/seats" /\
  ApiService.dashboard_path (Dashboard.GetUsageAnalytics 7) =
    "/api/analytics/usage?days=7".
Proof. split; reflexivity. Qed.

(** ** Errors that escape *)

Module Escapes.

Lemma dashboard_step (format_MMM_dd : string -> option string) (ev : Dashboard.event)
    (p : Dashboard.page) :
  Dashboard.unhandled (Dashboard.step format_MMM_dd ev p) = Dashboard.unhandled p.
Proof.
  destruct ev as [| |id r|id r|id r]; simpl;
    try (destruct (Dashboard.interval p); reflexivity);
    try reflexivity;
    destruct (Async.take id (Dashboard.pending p)) as [[[| |days] rest]|];
    try reflexivity;
    try (destruct r; reflexivity);
    destruct (fetchUsageData_resume_returns format_MMM_dd r (Dashboard.comp p))
      as (c' & Hc' & _);
    unfold Dashboard.resume; rewrite Hc'; reflexivity.
Qed.

Lemma seatLayout_step (ev : SeatLayout.event) (p : SeatLayout.page) :
  SeatLayout.unhandled (SeatLayout.step ev p) = SeatLayout.unhandled p.
Proof.
  destruct ev as [value| |seat|id r|id r]; simpl.
  - unfold SeatLayout.rerender, SeatLayout.effect_selectedHallId. simpl.
    destruct (value =? _); [reflexivity|].
    destruct (Js.truthy value); reflexivity.
  - reflexivity.
  - reflexivity.
  - destruct (Async.take id (SeatLayout.pending p)) as [[[closure|hallId] rest]|];
      try reflexivity.
    destruct (Selection.fetchHalls_resume_frame closure r (SeatLayout.comp p))
      as (c' & Hc' & _).
    unfold SeatLayout.rerender, SeatLayout.effect_selectedHallId, SeatLayout.resume.
    rewrite Hc'. simpl.
    destruct (_ =? _); simpl; [reflexivity|].
    destruct (Js.truthy _); reflexivity.
  - destruct (Async.take id (SeatLayout.pending p)) as [[[closure|hallId] rest]|];
      try reflexivity.
    destruct r; reflexivity.
Qed.

End Escapes.

(** X18. No failure of a request escapes the views: whatever the events
    and however each request is settled, every rejection is caught by the
    [try]/[catch] around its [await], in the dashboard (overview, active
    sessions, usage) and in the seat layout (halls, seats), so the list of
    unhandled errors stays empty. *)
Theorem no_rejection_escapes
    (format_MMM_dd : string -> option string)
    (dashboard_events : list Dashboard.event)
    (layout_events : list SeatLayout.event) :
  Dashboard.unhandled (Dashboard.run format_MMM_dd dashboard_events Dashboard.mount) = [] /\
  SeatLayout.unhandled (SeatLayout.run layout_events SeatLayout.mount) = [].
Proof.
  split.
  - transitivity (Dashboard.unhandled Dashboard.mount); [|reflexivity].
    generalize Dashboard.mount.
    induction dashboard_events as [|ev evs IH]; intros p; simpl; [reflexivity|].
    now rewrite IH, Escapes.dashboard_step.
  - transitivity (SeatLayout.unhandled SeatLayout.mount); [|reflexivity].
    generalize SeatLayout.mount.
    induction layout_events as [|ev evs IH]; intros p; simpl; [reflexivity|].
    now rewrite IH, Escapes.seatLayout_step.
Qed.
